(** * SelfEvolveWeb: module loader, evolution engine and BIOS helpers

    A shallow embedding of the parts of the repository that its
    specification makes claims about:

    - [sanitizeCodeForBabel] and the start-up read of the persisted
      project (src/App.tsx, the static BIOS);
    - [customRequire], [evolveCode], [handleEvolveRequest] and the file
      explorer of the seed project (the bootloader and kernel sources held
      in INITIAL_PROJECT);
    - [resolvePath], [require] and [executeModule] of the live-preview
      bundle, and [handleEvolve] (src/boot/kernel.tsx).

    JavaScript strings are modelled by [string], one element per code
    unit; every character the code inspects is ASCII, and no code unit of
    a multi-unit character equals an ASCII one, so the byte view and the
    UTF-16 view agree on what the functions below do.  A JavaScript
    object used as a path-indexed table (the VFS, the module cache, the
    bundle's module table) is a [gmap string _]. *)

From Stdlib Require Import Strings.String Strings.Ascii Lists.List Arith.PeanoNat Bool.Bool.
From Stdlib Require Import ZArith Sorting.Sorted Numbers.DecimalString.
From stdpp Require Import base option list gmap strings fin_maps sets.

Local Open Scope list_scope.
Local Open Scope string_scope.

(** ** Strings as the code uses them *)

(** [s.startsWith(p)]. *)
Definition startsWith (s p : string) : bool := String.prefix p s.

(** [s.endsWith(p)]: [p] is [s] or the end of its tail. *)
Fixpoint endsWith (s p : string) : bool :=
  String.eqb s p
  || match s with
     | EmptyString => false
     | String _ rest => endsWith rest p
     end.

(** [s.split(sep)] for a one-character separator: never the empty list. *)
Fixpoint split (sep : ascii) (s : string) : list string :=
  match s with
  | EmptyString => [EmptyString]
  | String c rest =>
      if Ascii.eqb c sep then EmptyString :: split sep rest
      else match split sep rest with
           | seg :: segs => String c seg :: segs
           | [] => [String c EmptyString]
           end
  end.

(** [l.join(sep)]. *)
Fixpoint join (sep : string) (l : list string) : string :=
  match l with
  | [] => EmptyString
  | [x] => x
  | x :: rest => x ++ sep ++ join sep rest
  end.

(** [l.pop()] and [l.slice(0, -1)], for the array that is left. *)
Definition pop (l : list string) : list string := removelast l.

(** The double quote, which a string literal here cannot hold. *)
Definition dquote : ascii := Ascii.ascii_of_nat 34.
Definition backslash : ascii := Ascii.ascii_of_nat 92.

(** ** The BIOS sanitizer (src/App.tsx)

    The sanitizer is one global regular-expression replace: a backslash
    under a negative look-ahead for one of the characters n, t, single
    quote, double quote, backslash, slash, or for u and four hexadecimal
    digits.  The scan goes left to right; a match is one backslash whose
    look-ahead fails, and it is replaced by two backslashes.  The look-ahead consumes
    nothing, so the scan resumes at the very next character. *)

Definition is_hex (c : ascii) : bool :=
  let n := Ascii.nat_of_ascii c in
  ((48 <=? n) && (n <=? 57) || (65 <=? n) && (n <=? 70) || (97 <=? n) && (n <=? 102))%nat.

(** The character class of the look-ahead: n, t, the two quotes, the
    backslash and the slash. *)
Definition is_simple_escape (c : ascii) : bool :=
  let n := Ascii.nat_of_ascii c in
  ((n =? 110) || (n =? 116) || (n =? 39) || (n =? 34) || (n =? 92) || (n =? 47))%nat.

(** [[0-9a-fA-F]{4}] at the head of [s]. *)
Definition hex4 (s : string) : bool :=
  match s with
  | String a (String b (String c (String d _))) => is_hex a && is_hex b && is_hex c && is_hex d
  | _ => false
  end.

(** The whole look-ahead at the head of [s]: a character of the class, or
    u and four hexadecimal digits. *)
Definition valid_escape_ahead (s : string) : bool :=
  match s with
  | EmptyString => false
  | String c rest => is_simple_escape c || (Ascii.eqb c "u" && hex4 rest)
  end.

Fixpoint sanitizeCodeForBabel (code : string) : string :=
  match code with
  | EmptyString => EmptyString
  | String c rest =>
      if Ascii.eqb c backslash && negb (valid_escape_ahead rest)
      then String backslash (String backslash (sanitizeCodeForBabel rest))
      else String c (sanitizeCodeForBabel rest)
  end.

(** The first [n] characters of [s] exist and are hexadecimal digits. *)
Fixpoint hexRun (n : nat) (s : string) : bool :=
  match n with
  | 0 => true
  | S n' =>
      match s with
      | EmptyString => false
      | String c rest => is_hex c && hexRun n' rest
      end
  end.

(** The number of backslashes of [s] that the regular expression
    matches. *)
Fixpoint offending (s : string) : nat :=
  match s with
  | EmptyString => 0
  | String c rest =>
      (if Ascii.eqb c backslash && negb (valid_escape_ahead rest) then 1 else 0) + offending rest
  end.

(** Every backslash of [s] is followed by one of the escapes the
    look-ahead accepts. *)
Fixpoint all_escapes_valid (s : string) : bool :=
  match s with
  | EmptyString => true
  | String c rest =>
      (negb (Ascii.eqb c backslash) || valid_escape_ahead rest) && all_escapes_valid rest
  end.

(** The text with its backslashes removed, and their number. *)
Fixpoint without_backslashes (s : string) : string :=
  match s with
  | EmptyString => EmptyString
  | String c rest =>
      if Ascii.eqb c backslash then without_backslashes rest
      else String c (without_backslashes rest)
  end.

Fixpoint count_backslashes (s : string) : nat :=
  match s with
  | EmptyString => 0
  | String c rest => (if Ascii.eqb c backslash then 1 else 0) + count_backslashes rest
  end.

(** ** Results and the platform

    A JavaScript call either returns or throws; [Err] carries what was
    thrown. *)

Inductive result (E A : Type) : Type :=
| Ok (a : A)
| Err (e : E).
Arguments Ok {E A} a.
Arguments Err {E A} e.

(** The statements a compiled module body performs, as far as the loader
    can observe them: a call of the injected [require], and an assignment
    to a property of the injected [exports] object. *)
Inductive stmt :=
| SRequire (specifier : string)
| SExportsSet (key value : string).

(** The [Evolution] record of the bootloader: the action tag as the
    service sent it, the target path and the new content. *)
Record Evolution := mkEvolution {
  action : string;
  filePath : string;
  code : string
}.

(** One entry of the batch protocol's [changes] array. *)
Record Change := mkChange {
  change_filePath : string;
  change_content : string
}.

(** The VFS: [Record<string, string>]. *)
Abbreviation VFS := (gmap string string).

(** What the code takes from its host and from the libraries it loads.
    [None] stands for a thrown exception.

    - [URL_pathname spec base] is [new URL(spec, base).pathname];
    - [Babel_transform src filename] is [Babel.transform(src, ...).code];
    - [Function_body code] is what the function built by [new Function]
      from the text [code] does when it is called;
    - [JSON_parse_evolution] and [JSON_parse_vfs] are [JSON.parse] on the
      service's reply and on the persisted project, the result read at the
      type the code gives it. *)
Class Platform := {
  URL_pathname : string -> string -> option string;
  Babel_transform : string -> string -> option string;
  Function_body : string -> option (list stmt);
  JSON_parse_evolution : string -> option Evolution;
  JSON_parse_vfs : string -> option VFS
}.

(** ** The evolution engine of the bootloader (single-target protocol) *)

(** What [ai.models.generateContent] gives back: a rejection, or a
    response whose [text] may be undefined. *)
Inductive ServiceReply :=
| ServiceError (message : string)
| ServiceResponse (text : option string).

(** The tail of [evolveCode], after the service call. *)
Definition evolveCode `{Platform} (reply : ServiceReply) : result string Evolution :=
  match reply with
  | ServiceError message => Err message
  | ServiceResponse None => Err "Received an empty response from the AI."
  | ServiceResponse (Some jsonText) =>
      if String.eqb jsonText EmptyString
      then Err "Received an empty response from the AI."
      else match JSON_parse_evolution jsonText with
           | None => Err "Unexpected token in JSON"
           | Some evolution =>
               if String.eqb (action evolution) "DELETE"
               then Ok (mkEvolution (action evolution) (filePath evolution) EmptyString)
               else Ok evolution
           end
  end.

(** [obj[key] = val] on a plain object that holds texts.  The object
    gets or keeps an own property, with one exception: the key __proto__
    is an accessor of every object's prototype, its setter ignores a
    text, and so the assignment stores nothing unless the object already
    owns that key (as a parsed project may). *)
Definition assignProperty (key val : string) (obj : VFS) : VFS :=
  match obj !! key with
  | Some _ => <[key := val]> obj
  | None => if String.eqb key "__proto__" then obj else <[key := val]> obj
  end.

(** The updater that [handleEvolveRequest] hands to [setProjectFiles]. *)
Definition applyEvolution (evolution : Evolution) (prevFiles : VFS) : result string VFS :=
  let newFiles := prevFiles in
  if String.eqb (action evolution) "UPDATE" || String.eqb (action evolution) "CREATE"
  then Ok (assignProperty (filePath evolution) (code evolution) newFiles)
  else if String.eqb (action evolution) "DELETE"
  then Ok (delete (filePath evolution) newFiles)
  else Err ("Unknown action from AI: " ++ action evolution).

(** The state of the [Bootloader] component that an evolution touches. *)
Record BootloaderState := mkBootloaderState {
  projectFiles : VFS;
  isEvolving : bool;
  bootError : option string
}.

(** [handleEvolveRequest], from the state it finds to the state of the
    component once the queued updates are processed, given what the
    service answers.  An empty goal is refused before anything else.
    Otherwise the error is cleared and [evolveCode] runs inside the try
    block: a throw from it ends in the catch block, which sets the error.
    [setProjectFiles] only queues the updater and never throws; React
    runs the updater when it renders the component, so a throw from the
    updater does not reach the catch block: it commits no new VFS, leaves
    the error cleared, and is raised at render (see
    [ErrorBoundary_error]).  The finally block clears the busy flag. *)
Definition handleEvolveRequest `{Platform}
    (st : BootloaderState) (target goal : string) (reply : ServiceReply) : BootloaderState :=
  if String.eqb goal EmptyString
  then mkBootloaderState (projectFiles st) (isEvolving st)
         (Some "Cannot evolve: goal must be specified.")
  else
    match evolveCode reply with
    | Err message =>
        mkBootloaderState (projectFiles st) false (Some ("Evolution failed: " ++ message))
    | Ok evolution =>
        match applyEvolution evolution (projectFiles st) with
        | Err _ => mkBootloaderState (projectFiles st) false None
        | Ok newFiles => mkBootloaderState newFiles false None
        end
    end.

(** The error that the BIOS's error boundary catches after
    [handleEvolveRequest]: what the updater threw when React ran it, which
    the boundary shows in place of the application. *)
Definition ErrorBoundary_error `{Platform}
    (st : BootloaderState) (target goal : string) (reply : ServiceReply) : option string :=
  if String.eqb goal EmptyString then None
  else
    match evolveCode reply with
    | Err _ => None
    | Ok evolution =>
        match applyEvolution evolution (projectFiles st) with
        | Err message => Some message
        | Ok _ => None
        end
    end.

(** The file explorer of the seed project: the paths whose row carries a
    delete control. *)
Definition is_boot_critical (path : string) : bool := startsWith path "/boot/".

Definition FileExplorer_deletable (files : VFS) : gset string :=
  filter (fun path => is_boot_critical path = false) (dom files).

(** ** The batch protocol (src/boot/kernel.tsx) *)

(** Modelled from the spec: [onVfsBatchUpdate], the callback the kernel
    receives from its bootloader and whose body is not among the sources;
    the specification has it upsert every listed path, in list order. *)
Definition onVfsBatchUpdate (changes : list Change) (vfs : VFS) : VFS :=
  fold_left (fun acc c => <[change_filePath c := change_content c]> acc) changes vfs.

(** What [handleEvolve] does with a parsed result: the batch is applied
    when [changes] is present and not empty. *)
Definition handleEvolve_apply (changes : option (list Change)) (vfs : VFS) : VFS :=
  match changes with
  | Some (c :: cs) => onVfsBatchUpdate (c :: cs) vfs
  | _ => vfs
  end.

(** ** Start-up of the BIOS (src/App.tsx) *)

(** What [window.localStorage.getItem] does: throw, return null, or
    return the stored text. *)
Inductive StorageRead :=
| ReadThrows
| ReadNull
| ReadValue (saved : string).

(** The initializer of the BIOS's [projectFiles] state.  The seed
    project is taken as it is given: its six sources are long texts, and
    the initializer only hands the table over. *)
Definition initialProjectFiles `{Platform} (INITIAL_PROJECT : VFS) (read : StorageRead) : VFS :=
  match read with
  | ReadThrows => INITIAL_PROJECT
  | ReadNull => INITIAL_PROJECT
  | ReadValue saved =>
      if String.eqb saved EmptyString then INITIAL_PROJECT
      else match JSON_parse_vfs saved with
           | Some files => files
           | None => INITIAL_PROJECT
           end
  end.

(** ** The module loader of the bootloader: [customRequire] *)

Inductive LoadError :=
| ModuleNotFound (importPath importerPath baseResolvedPath : string)
| BundleModuleNotFound (absolutePath path : string)
| EntryPointNotFound
| InvalidURL (importPath base : string)
| TransformError (path : string)
| FunctionError (path : string)
| NoModuleObject (path : string).

(** What a [require] call returns: one of the two host bindings, an
    exports object, named by its place in the store of objects, or
    undefined. *)
Inductive value :=
| VReact
| VGoogleGenAI
| VObject (ref : nat)
| VUndefined.

(** A module object [{ exports: ... }].  No modelled statement assigns
    to [module.exports], so the field keeps the object it was created
    with. *)
Record ModuleCell := mkModuleCell { exports : nat }.

(** The trace is a ghost record of what happened, in order: it plays no
    part in what the loader computes. *)
Inductive event :=
| EvCached (path : string) (ref : nat)
| EvExecuting (path : string)
| EvRequired (importer specifier : string) (v : value)
| EvExecuted (path : string).

Record LoaderState := mkLoaderState {
  moduleCache : gmap string ModuleCell;
  objects : list (gmap string string);
  trace : list event
}.

Definition emptyLoaderState : LoaderState := mkLoaderState ∅ [] [].

Definition log (e : event) (st : LoaderState) : LoaderState :=
  mkLoaderState (moduleCache st) (objects st) (trace st ++ [e]).

(** [const module = { exports: {} }; moduleCache[path] = module]. *)
Definition cacheFreshModule (path : string) (st : LoaderState) : nat * LoaderState :=
  let ref := List.length (objects st) in
  (ref, mkLoaderState (<[path := mkModuleCell ref]> (moduleCache st))
                      (objects st ++ [∅])
                      (trace st ++ [EvCached path ref])).

(** [exports[key] = value]. *)
Definition setProperty (ref : nat) (key val : string) (st : LoaderState) : LoaderState :=
  mkLoaderState (moduleCache st)
                (alter (fun obj => <[key := val]> obj) ref (objects st))
                (trace st).

(** A loader step: out of fuel ([None]), or a result and the new state. *)
Definition Load (A : Type) : Type := LoaderState -> option (result LoadError A * LoaderState).

(** Running a compiled body for the module [self] with the [require]
    it was given and its exports object. *)
Fixpoint runBody (require : string -> Load value) (self : string) (exportsRef : nat)
    (body : list stmt) : Load unit :=
  fun st =>
  match body with
  | [] => Some (Ok tt, st)
  | SRequire specifier :: rest =>
      match require specifier st with
      | None => None
      | Some (Err e, st') => Some (Err e, st')
      | Some (Ok v, st') =>
          runBody require self exportsRef rest (log (EvRequired self specifier v) st')
      end
  | SExportsSet key val :: rest =>
      runBody require self exportsRef rest (setProperty exportsRef key val st)
  end.

(** The base the specifier is resolved against. *)
Definition importerBase (importerPath : string) : string :=
  "file://" ++ join "/" (pop (split "/" importerPath)) ++ "/".

Definition possiblePaths (baseResolvedPath : string) : list string :=
  [ baseResolvedPath;
    baseResolvedPath ++ ".tsx";
    baseResolvedPath ++ ".ts";
    baseResolvedPath ++ "/index.tsx";
    baseResolvedPath ++ "/index.ts" ].

(** The probing loop: the first path that is an own property of the
    VFS. *)
Fixpoint firstPresent (files : VFS) (paths : list string) : option string :=
  match paths with
  | [] => None
  | p :: rest =>
      match files !! p with
      | Some _ => Some p
      | None => firstPresent files rest
      end
  end.

(** [!finalResolvedPath]: null, or the empty string. *)
Definition falsyPath (finalResolvedPath : option string) : bool :=
  match finalResolvedPath with
  | None => true
  | Some p => String.eqb p EmptyString
  end.

(** The resolution part of [customRequire], for a specifier other than
    the host binding. *)
Definition resolve `{Platform} (files : VFS) (importerPath importPath : string)
    : result LoadError string :=
  match URL_pathname importPath (importerBase importerPath) with
  | None => Err (InvalidURL importPath (importerBase importerPath))
  | Some baseResolvedPath =>
      let finalResolvedPath := firstPresent files (possiblePaths baseResolvedPath) in
      if falsyPath finalResolvedPath
      then Err (ModuleNotFound importPath importerPath baseResolvedPath)
      else match finalResolvedPath with
           | Some p => Ok p
           | None => Err (ModuleNotFound importPath importerPath baseResolvedPath)
           end
  end.

Fixpoint customRequire `{Platform} (fuel : nat) (files : VFS)
    (importerPath importPath : string) {struct fuel} : Load value :=
  fun st =>
  match fuel with
  | 0 => None
  | S fuel' =>
      if String.eqb importPath "react" then Some (Ok VReact, st)
      else
        match resolve files importerPath importPath with
        | Err e => Some (Err e, st)
        | Ok finalResolvedPath =>
            match moduleCache st !! finalResolvedPath with
            | Some cell => Some (Ok (VObject (exports cell)), st)
            | None =>
                match files !! finalResolvedPath ≫= (fun src => Babel_transform src finalResolvedPath) with
                | None => Some (Err (TransformError finalResolvedPath), st)
                | Some transformedCode =>
                    let '(ref, st1) := cacheFreshModule finalResolvedPath st in
                    match Function_body transformedCode with
                    | None => Some (Err (FunctionError finalResolvedPath), st1)
                    | Some body =>
                        match runBody (customRequire fuel' files finalResolvedPath)
                                      finalResolvedPath ref body
                                      (log (EvExecuting finalResolvedPath) st1) with
                        | None => None
                        | Some (Err e, st2) => Some (Err e, st2)
                        | Some (Ok _, st2) =>
                            Some (Ok (VObject ref), log (EvExecuted finalResolvedPath) st2)
                        end
                    end
                end
            end
        end
  end.

(** The bodies that were entered, and what the requires issued by the
    body of [importer] got back, read off the trace. *)
Definition executions (tr : list event) : list string :=
  omap (fun e => match e with EvExecuting p => Some p | _ => None end) tr.

Definition observedBy (importer : string) (tr : list event) : list (string * value) :=
  omap (fun e => match e with
                 | EvRequired i s v => if String.eqb i importer then Some (s, v) else None
                 | _ => None
                 end) tr.

(** ** The live-preview bundle (src/boot/kernel.tsx) *)

Definition isTypeScriptPath (path : string) : bool :=
  endsWith path ".ts" || endsWith path ".tsx".

(** A table entry read in a condition: absent and empty text are both
    falsy. *)
Definition truthy (entry : option string) : bool :=
  match entry with
  | Some text => negb (String.eqb text EmptyString)
  | None => false
  end.

(** The first loop of [bundleAndRun]: every TypeScript file of the VFS is
    transpiled; one failing transform fails the whole run. *)
Definition transpiledVFS `{Platform} (vfs : VFS) : result LoadError (gmap string string) :=
  if bool_decide (map_Exists (fun path src =>
                    isTypeScriptPath path = true /\ Babel_transform src path = None) vfs)
  then Err (TransformError EmptyString)
  else Ok (map_imap (fun path src =>
             if isTypeScriptPath path then Babel_transform src path else None) vfs).

(** The bundle's tables [modules] and [moduleCache] are plain objects, so
    a read finds, besides the own entries, the members every object
    inherits from its prototype. *)
Definition inheritedNames : list string :=
  [ "constructor"; "__proto__"; "hasOwnProperty"; "isPrototypeOf";
    "propertyIsEnumerable"; "toLocaleString"; "toString"; "valueOf";
    "__defineGetter__"; "__defineSetter__"; "__lookupGetter__"; "__lookupSetter__" ].

Definition inheritedName (name : string) : bool :=
  existsb (String.eqb name) inheritedNames.

(** [table[key]] read in a condition: an own text is truthy when not
    empty, an inherited member always. *)
Definition tableTruthy (table : gmap string string) (key : string) : bool :=
  match table !! key with
  | Some text => negb (String.eqb text EmptyString)
  | None => inheritedName key
  end.

(** One turn of the loop of [resolvePath] over the parts of the
    specifier. *)
Definition resolvePath_step (stack : list string) (part : string) : list string :=
  if String.eqb part ".." then pop stack
  else if String.eqb part "." then stack
  else stack ++ [part].

(** [resolvePath].  The two table reads are at keys that end in .tsx
    and .ts, which no inherited name does, so [truthy] of the own entry
    is all there is to them. *)
Definition resolvePath (modules : gmap string string) (base relative : string) : string :=
  if negb (startsWith relative ".") then relative
  else
    let stack := fold_left resolvePath_step (split "/" relative) (pop (split "/" base)) in
    let path := join "/" stack in
    if negb (endsWith path ".tsx") && negb (endsWith path ".ts")
    then if truthy (modules !! (path ++ ".tsx")) then path ++ ".tsx"
         else if truthy (modules !! (path ++ ".ts")) then path ++ ".ts"
         else path
    else path.

(** The resolution part of the bundle's [require], for a specifier other
    than the two host bindings: the not-found test passes for a
    transpiled module and for an inherited name. *)
Definition bundleResolve (modules : gmap string string) (path relativePath : string)
    : result LoadError string :=
  let absolutePath := resolvePath modules path relativePath in
  if negb (tableTruthy modules absolutePath)
  then Err (BundleModuleNotFound absolutePath path)
  else Ok absolutePath.

(** [executeModule(path, code)], given the [require] of each module. *)
Definition executeModuleWith `{Platform} (require : string -> string -> Load value)
    (path code : string) : Load unit :=
  fun st =>
  match moduleCache st !! path with
  | None => Some (Err (NoModuleObject path), st)
  | Some cell =>
      match Function_body code with
      | None => Some (Err (FunctionError path), st)
      | Some body => runBody (require path) path (exports cell) body (log (EvExecuting path) st)
      end
  end.

(** The [require] that [executeModule] builds for the module [path].
    The cache read finds an own module object, or else, at an inherited
    name, the inherited member, whose [exports] is undefined. *)
Fixpoint bundleRequire `{Platform} (fuel : nat) (modules : gmap string string)
    (path relativePath : string) {struct fuel} : Load value :=
  fun st =>
  match fuel with
  | 0 => None
  | S fuel' =>
      if String.eqb relativePath "react" then Some (Ok VReact, st)
      else if String.eqb relativePath "@google/genai" then Some (Ok VGoogleGenAI, st)
      else
        match bundleResolve modules path relativePath with
        | Err e => Some (Err e, st)
        | Ok absolutePath =>
            match moduleCache st !! absolutePath with
            | Some cell => Some (Ok (VObject (exports cell)), st)
            | None =>
                if inheritedName absolutePath then Some (Ok VUndefined, st)
                else
                let '(ref, st1) := cacheFreshModule absolutePath st in
                match executeModuleWith (bundleRequire fuel' modules) absolutePath
                        (default EmptyString (modules !! absolutePath)) st1 with
                | None => None
                | Some (Err e, st2) => Some (Err e, st2)
                | Some (Ok _, st2) => Some (Ok (VObject ref), st2)
                end
            end
        end
  end.

Definition executeModule `{Platform} (fuel : nat) (modules : gmap string string)
    (path code : string) : Load unit :=
  executeModuleWith (bundleRequire fuel modules) path code.

(** The bundle, from the transpiled table to the end of the entry
    module. *)
Definition entryPoint : string := "/index.tsx".

Definition bundleAndRun `{Platform} (fuel : nat) (vfs : VFS) : Load unit :=
  fun st =>
  match transpiledVFS vfs with
  | Err e => Some (Err e, st)
  | Ok modules =>
      if negb (truthy (modules !! entryPoint)) then Some (Err EntryPointNotFound, st)
      else
        let '(_, st1) := cacheFreshModule entryPoint st in
        executeModule fuel modules entryPoint (default EmptyString (modules !! entryPoint)) st1
  end.

(** ** A platform to run the definitions on

    The instance below answers only on plain inputs, where what the host
    does is not in doubt: URL resolution of a specifier made of letters,
    digits, dot, dash, underscore and slash against a [file:///] base,
    and a source text that is one call [require(...)] of a quoted
    specifier, which the transpiler passes on with a semicolon.  It
    answers [None] everywhere else, and is used at plain inputs only. *)

Definition isPlainChar (c : ascii) : bool :=
  let n := Ascii.nat_of_ascii c in
  ((48 <=? n) && (n <=? 57) || (65 <=? n) && (n <=? 90) || (97 <=? n) && (n <=? 122)
   || (n =? 45) || (n =? 46) || (n =? 47) || (n =? 95))%nat.

Fixpoint allPlain (s : string) : bool :=
  match s with
  | EmptyString => true
  | String c rest => isPlainChar c && allPlain rest
  end.

(** The dot-segment rules of the URL path state: a segment followed by a
    slash, and the last one. *)
Fixpoint urlSegments (path segs : list string) : list string :=
  match segs with
  | [] => path
  | [seg] =>
      if String.eqb seg ".." then pop path ++ [EmptyString]
      else if String.eqb seg "." then path ++ [EmptyString]
      else path ++ [seg]
  | seg :: rest =>
      urlSegments (if String.eqb seg ".." then pop path
                   else if String.eqb seg "." then path
                   else path ++ [seg]) rest
  end.

Definition dropChars (n : nat) (s : string) : string :=
  String.substring n (String.length s - n) s.

Definition plainURLPathname (spec base : string) : option string :=
  if allPlain spec && negb (startsWith spec "//")
     && startsWith base "file:///" && allPlain (dropChars 8 base)
  then
    let basePath := urlSegments [] (split "/" (dropChars 8 base)) in
    let start := if startsWith spec "/" then [] else pop basePath in
    let segs := split "/" (if startsWith spec "/" then dropChars 1 spec else spec) in
    Some ("/" ++ join "/" (urlSegments start segs))
  else None.

(** The text [require(<quoted spec>)]. *)
Definition requireCall (spec : string) : string :=
  "require(" ++ String dquote spec ++ String dquote ")".

Definition stripPrefix (p s : string) : option string :=
  if startsWith s p then Some (dropChars (String.length p) s) else None.

Definition stripSuffix (p s : string) : option string :=
  if endsWith s p then Some (String.substring 0 (String.length s - String.length p) s) else None.

Definition parseRequireCall (src : string) : option string :=
  inner ← stripPrefix ("require(" ++ String dquote EmptyString) src;
  spec ← stripSuffix (String dquote ")") inner;
  if allPlain spec then Some spec else None.

Definition plainBabelTransform (src filename : string) : option string :=
  _ ← parseRequireCall src; Some (src ++ ";").

Definition plainFunctionBody (code : string) : option (list stmt) :=
  src ← stripSuffix ";" code;
  spec ← parseRequireCall src;
  Some [SRequire spec].

Definition plainPlatform : Platform := {|
  URL_pathname := plainURLPathname;
  Babel_transform := plainBabelTransform;
  Function_body := plainFunctionBody;
  JSON_parse_evolution := fun _ => None;
  JSON_parse_vfs := fun _ => None
|}.

(** The cycle of the specification: two files that require each other. *)
Definition cycleVFS : VFS :=
  <["/a" := requireCall "/b"]> (<["/b" := requireCall "/a"]> ∅).

(** The plain platform, with a service whose reply parses to [evolution]
    and a store whose text parses to [files]. *)
Definition replyingPlatform (evolution : Evolution) (files : VFS) : Platform := {|
  URL_pathname := plainURLPathname;
  Babel_transform := plainBabelTransform;
  Function_body := plainFunctionBody;
  JSON_parse_evolution := fun _ => Some evolution;
  JSON_parse_vfs := fun _ => Some files
|}.

(** The action tags the updater knows. *)
Definition knownAction (tag : string) : Prop :=
  tag = "UPDATE" \/ tag = "CREATE" \/ tag = "DELETE".

(** The replies the engine must reject: no text, or a parsed action
    whose tag is unknown. *)
Definition rejectedReply `{Platform} (reply : ServiceReply) : Prop :=
  reply = ServiceResponse None
  \/ reply = ServiceResponse (Some EmptyString)
  \/ exists text evolution,
       reply = ServiceResponse (Some text)
       /\ JSON_parse_evolution text = Some evolution
       /\ ~ knownAction (action evolution).

(** The data model's paths: absolute, that is, starting with a slash. *)
Definition absolutePaths (files : VFS) : Prop :=
  forall p, is_Some (files !! p) -> startsWith p "/" = true.

(** A project with the six paths of the seed project; short texts stand
    for the sources, which nothing below looks into. *)
Definition sampleProject : VFS :=
  <["/boot/bootloader.tsx" := "bootloader"]>
    (<["/boot/kernel.tsx" := "kernel"]>
      (<["/components/FileExplorer.tsx" := "explorer"]>
        (<["/components/Editor.tsx" := "editor"]>
          (<["/components/EvolveIcon.tsx" := "icon"]>
            (<["/components/LoadingSpinner.tsx" := "spinner"]> ∅))))).



(** Four small projects: one file that only extension probing finds, an
    entry that names a sibling by an absolute specifier, an entry that
    names a directory, and an entry that names a sibling relatively. *)
Definition extensionProject : VFS :=
  <["/a.tsx" := "export default 1"]> ∅.




(** The state the loader is in after loading /a of [cycleVFS] from an
    empty cache: both modules cached, one exports object each, and the
    order in which things happened. *)
Definition cycleFinalState : LoaderState := {|
  moduleCache := <["/b" := mkModuleCell 1]> (<["/a" := mkModuleCell 0]> ∅);
  objects := [∅; ∅];
  trace := [ EvCached "/a" 0; EvExecuting "/a";
             EvCached "/b" 1; EvExecuting "/b";
             EvRequired "/b" "/a" (VObject 0); EvExecuted "/b";
             EvRequired "/a" "/b" (VObject 1); EvExecuted "/a" ]
|}.

(** The same cycle where the bundle can see it: the entry and a sibling
    that require each other by relative specifiers. *)
Definition bundleCycleProject : VFS :=
  <["/index.tsx" := requireCall "./b"]> (<["/b.tsx" := requireCall "./index"]> ∅).

(** The files of the VFS that the cache does not hold yet: what a load
    can still have to execute. *)
Definition uncached (files : VFS) (st : LoaderState) : nat :=
  size (dom files ∖ dom (moduleCache st)).

(** ** More of the bootloader and of the seed kernel *)

(** [handleFileChange]: the direct edit the kernel's editor sends up. *)
Definition handleFileChange (path newContent : string) (prevFiles : VFS) : VFS :=
  <[path := newContent]> prevFiles.

(** What a handler of the seed kernel ends in: a call of
    [onEvolveRequest], an alert, or nothing. *)
Inductive KernelAction :=
| RequestEvolve (path goal : string)
| AlertInvalidPath
| NoAction.

(** [handleFileCreate], given what [window.prompt] returned ([None] for
    a cancelled dialog). *)
Definition handleFileCreate (newFilePath : option string) : KernelAction :=
  match newFilePath with
  | None => NoAction
  | Some path =>
      if negb (String.eqb path EmptyString) && startsWith path "/"
      then RequestEvolve path ("Create a new empty React component at: " ++ path)
      else if negb (String.eqb path EmptyString) then AlertInvalidPath
      else NoAction
  end.

(** [handleFileDelete], given what [window.confirm] returned. *)
Definition handleFileDelete (confirmed : bool) (path : string) : KernelAction :=
  if confirmed then RequestEvolve path ("Delete the file at path: " ++ path) else NoAction.

(** [s.lastIndexOf(c)] for one character: the last position of [c], or
    -1. *)
Fixpoint lastIndexOf (c : ascii) (s : string) : Z :=
  match s with
  | EmptyString => (-1)%Z
  | String a rest =>
      let i := lastIndexOf c rest in
      if (0 <=? i)%Z then (i + 1)%Z
      else if Ascii.eqb a c then 0%Z else (-1)%Z
  end.

(** [s.substring(start)], a negative start counting as zero. *)
Definition substringFrom (start : Z) (s : string) : string :=
  dropChars (Z.to_nat start) s.

(** The text the file explorer shows for a path. *)
Definition fileLabel (path : string) : string :=
  substringFrom (lastIndexOf "/" path + 1) path.

(** The comparator the file explorer sorts the paths with;
    [localeCompare] is the host's. *)
Definition explorerCompare (localeCompare : string -> string -> Z) (a b : string) : Z :=
  if is_boot_critical a && negb (is_boot_critical b) then (-1)%Z
  else if negb (is_boot_critical a) && is_boot_critical b then 1%Z
  else localeCompare a b.

(** What [sort] leaves for a consistent comparator: no element is
    greater than a later one. *)
Definition sortedBy (compare : string -> string -> Z) (paths : list string) : Prop :=
  StronglySorted (fun a b => (compare a b <= 0)%Z) paths.

(** The editor's gutter: the number of lines of the content, and the
    line numbers from one up, one per line. *)
Definition newline : ascii := Ascii.ascii_of_nat 10.

Definition Editor_lines (content : string) : nat :=
  List.length (split newline content).

Definition decimal (n : nat) : string := NilZero.string_of_uint (Nat.to_uint n).

Definition Editor_lineNumbers (lines : nat) : string :=
  join (String newline EmptyString) (List.map (fun i => decimal (i + 1)) (List.seq 0 lines)).

(** ** The BIOS and its store (src/App.tsx)

    The store holds at most one text under the project's key; a write may
    throw. *)
Record BiosState := mkBiosState {
  bios_projectFiles : VFS;
  biosError : option string
}.

(** [getItem] on a store that does not throw. *)
Definition getItem (store : option string) : StorageRead :=
  match store with
  | None => ReadNull
  | Some saved => ReadValue saved
  end.

(** [saveProjectFiles]: stringify, write, and only then take the files
    as the BIOS's own; a throw ends in the error message. *)
Definition saveProjectFiles (JSON_stringify : VFS -> string) (setItemThrows : bool)
    (files : VFS) (store : option string) (bios : BiosState) : option string * BiosState :=
  if setItemThrows
  then (store, mkBiosState (bios_projectFiles bios)
                 (Some "Failed to save project files. Check console for details."))
  else (Some (JSON_stringify files), mkBiosState files (biosError bios)).

(** [handleFactoryReset], and the reset of the error boundary: the key is
    removed when the user confirms. *)
Definition handleFactoryReset (confirmed : bool) (store : option string) : option string :=
  if confirmed then None else store.

(** ** The kernel of the batch protocol (src/boot/kernel.tsx) *)

Record KernelState := mkKernelState {
  activeFile : string;
  prompt : string;
  isLoading : bool;
  error : string;
  lastSummary : string
}.

(** The parsed reply of the batch protocol: both fields may be missing. *)
Record BatchResult := mkBatchResult {
  changes : option (list Change);
  summary : option string
}.

(** [result.summary || 'Evolution complete!']. *)
Definition summaryOrDefault (summary : option string) : string :=
  match summary with
  | Some text => if String.eqb text EmptyString then "Evolution complete!" else text
  | None => "Evolution complete!"
  end.

(** [modifiedPaths.includes(activeFile)]. *)
Definition includes (paths : list string) (path : string) : bool :=
  existsb (String.eqb path) paths.

(** [handleEvolve]: the kernel's state and the VFS it was given, before
    and after.  [reply] is the service's answer, the message of a
    rejection or the text of the response (which may be undefined);
    [JSON_parse], which returns the parsed reply or the message of what it
    threw, and the callback [onVfsBatchUpdate] are the kernel's
    surroundings. *)
Definition handleEvolve (JSON_parse : option string -> result string BatchResult)
    (onVfsBatchUpdate : list Change -> VFS -> VFS)
    (reply : result string (option string)) (vfs : VFS) (st : KernelState)
    : VFS * KernelState :=
  if String.eqb (prompt st) EmptyString
  then (vfs, mkKernelState (activeFile st) (prompt st) (isLoading st)
               "Please enter a prompt to describe the change." (lastSummary st))
  else
    let failed message :=
      (vfs, mkKernelState (activeFile st) (prompt st) false message EmptyString) in
    match reply with
    | Err message => failed message
    | Ok text =>
        match JSON_parse text with
        | Err message => failed message
        | Ok parsed =>
            match changes parsed with
            | Some (c :: cs) =>
                let modifiedPaths := List.map change_filePath (c :: cs) in
                (onVfsBatchUpdate (c :: cs) vfs,
                 mkKernelState
                   (if includes modifiedPaths (activeFile st) then activeFile st
                    else change_filePath c)
                   EmptyString false EmptyString (summaryOrDefault (summary parsed)))
            | _ =>
                (vfs, mkKernelState (activeFile st) EmptyString false EmptyString
                        "No changes were made. I might need a more specific prompt.")
            end
        end
    end.

(** ** Vocabulary of the statements below *)

(** The character [c] occurs in [s]. *)
Fixpoint hasChar (c : ascii) (s : string) : bool :=
  match s with
  | EmptyString => false
  | String a rest => Ascii.eqb a c || hasChar c rest
  end.

(** Applying two evolutions, one after the other. *)
Definition applyEvolutionThen (first second : Evolution) (vfs : VFS) : result string VFS :=
  match applyEvolution first vfs with
  | Ok mid => applyEvolution second mid
  | Err message => Err message
  end.

(** No body was entered twice, and every module whose body was entered
    is in the cache. *)
Definition wellTraced (st : LoaderState) : Prop :=
  NoDup (executions (trace st))
  /\ forall p, In p (executions (trace st)) -> is_Some (moduleCache st !! p).

(** Modelled from the comment above [sanitizeCodeForBabel]: a text whose
    backslashes are each part of a valid escape sequence, read as a
    lexer reads them, from the left and an escape at a time: a backslash
    with one of n, t, the two quotes, the backslash and the slash, or with
    u and four hexadecimal digits.  [skip] counts the characters of the
    escape still to pass. *)
Fixpoint escapesWellFormed (skip : nat) (s : string) : bool :=
  match s with
  | EmptyString => true
  | String c rest =>
      match skip with
      | S skip' => escapesWellFormed skip' rest
      | 0 =>
          if Ascii.eqb c backslash
          then match rest with
               | EmptyString => false
               | String d after =>
                   if is_simple_escape d then escapesWellFormed 1 rest
                   else if Ascii.eqb d "u" && hex4 after then escapesWellFormed 5 rest
                   else false
               end
          else escapesWellFormed 0 rest
      end
  end.

(** The replace, position by position: the character at [i] of the text
    is a match when it is a backslash and the look-ahead fails on what
    follows it in the text; a match is replaced by two backslashes, any
    other character by itself, and the pieces are put together in
    order. *)
Definition replacedAt (s : string) (i : nat) : string :=
  match String.get i s with
  | None => EmptyString
  | Some c =>
      if Ascii.eqb c backslash && negb (valid_escape_ahead (dropChars (S i) s))
      then String backslash (String backslash EmptyString)
      else String c EmptyString
  end.

Definition replaceMatches (s : string) : string :=
  fold_right append EmptyString (List.map (replacedAt s) (List.seq 0 (String.length s))).

(* ===================================================================== *)
(** * Properties *)
(* ===================================================================== *)

(** ** The sanitizer *)

Section Sanitizer.

Lemma hex4_hexRun (s : string) : hex4 s = hexRun 4 s.
Proof.
  destruct s as [|a [|b [|c [|d s]]]]; simpl; try reflexivity.
  - now rewrite andb_false_r.
  - now rewrite !andb_false_r.
  - now rewrite !andb_false_r.
  - now rewrite andb_true_r, !andb_assoc.
Qed.

Lemma hexRun_sanitize (n : nat) (s : string) :
  hexRun n (sanitizeCodeForBabel s) = hexRun n s.
Proof.
  revert s; induction n as [|n IH]; intros s; [reflexivity|].
  destruct s as [|c rest]; [reflexivity|]. simpl.
  destruct (Ascii.eqb c backslash && negb (valid_escape_ahead rest)) eqn:E.
  - apply andb_true_iff in E as [Ec _]. apply Ascii.eqb_eq in Ec. subst c.
    reflexivity.
  - simpl. now rewrite IH.
Qed.

Lemma valid_escape_ahead_sanitize (s : string) :
  valid_escape_ahead (sanitizeCodeForBabel s) = valid_escape_ahead s.
Proof.
  destruct s as [|c rest]; [reflexivity|]. simpl.
  destruct (Ascii.eqb c backslash && negb (valid_escape_ahead rest)) eqn:E.
  - apply andb_true_iff in E as [Ec _]. apply Ascii.eqb_eq in Ec. subst c.
    reflexivity.
  - simpl. now rewrite !hex4_hexRun, hexRun_sanitize.
Qed.

Lemma offending_sanitize (s : string) :
  offending (sanitizeCodeForBabel s) = offending s.
Proof.
  induction s as [|c rest IH]; [reflexivity|]. simpl.
  destruct (Ascii.eqb c backslash && negb (valid_escape_ahead rest)) eqn:E.
  - apply andb_true_iff in E as [Ec Ev]. apply Ascii.eqb_eq in Ec. subst c.
    cbn [offending]. rewrite valid_escape_ahead_sanitize, Ev, IH.
    reflexivity.
  - cbn [offending]. now rewrite valid_escape_ahead_sanitize, E, IH.
Qed.

Lemma length_sanitize (s : string) :
  String.length (sanitizeCodeForBabel s) = String.length s + offending s.
Proof.
  induction s as [|c rest IH]; [reflexivity|]. simpl.
  destruct (Ascii.eqb c backslash && negb (valid_escape_ahead rest)); simpl; lia.
Qed.

Lemma sanitize_fixed_iff (s : string) :
  sanitizeCodeForBabel s = s <-> offending s = 0.
Proof.
  split.
  - intros Heq. pose proof (length_sanitize s) as Hl. rewrite Heq in Hl. lia.
  - induction s as [|c rest IH]; [reflexivity|]. simpl.
    destruct (Ascii.eqb c backslash && negb (valid_escape_ahead rest)); [discriminate|].
    intros H0. now rewrite IH.
Qed.

Lemma all_escapes_valid_iff (s : string) :
  all_escapes_valid s = true <-> offending s = 0.
Proof.
  induction s as [|c rest IH]; simpl; [easy|].
  destruct (Ascii.eqb c backslash), (valid_escape_ahead rest); simpl;
    rewrite ?IH; split; (lia || easy).
Qed.

Lemma without_backslashes_sanitize (s : string) :
  without_backslashes (sanitizeCodeForBabel s) = without_backslashes s.
Proof.
  induction s as [|c rest IH]; [reflexivity|]. simpl.
  destruct (Ascii.eqb c backslash && negb (valid_escape_ahead rest)) eqn:E.
  - apply andb_true_iff in E as [Ec _]. rewrite Ec.
    change (without_backslashes (sanitizeCodeForBabel rest) = without_backslashes rest).
    exact IH.
  - simpl. destruct (Ascii.eqb c backslash); now rewrite IH.
Qed.

Lemma count_backslashes_sanitize (s : string) :
  count_backslashes (sanitizeCodeForBabel s) = count_backslashes s + offending s.
Proof.
  induction s as [|c rest IH]; [reflexivity|]. simpl.
  destruct (Ascii.eqb c backslash && negb (valid_escape_ahead rest)) eqn:E.
  - apply andb_true_iff in E as [Ec _]. rewrite Ec.
    change (1 + (1 + count_backslashes (sanitizeCodeForBabel rest))
            = 1 + count_backslashes rest + (1 + offending rest)).
    lia.
  - simpl. rewrite IH. lia.
Qed.

End Sanitizer.

(** ** The evolution engine *)

Section Evolution.
Context `{Platform}.

Lemma assignProperty_absolute (key val : string) (obj : VFS) :
  startsWith key "/" = true -> assignProperty key val obj = <[key := val]> obj.
Proof.
  intros Hkey. unfold assignProperty. destruct (obj !! key); [reflexivity|].
  destruct (String.eqb_spec key "__proto__") as [->|_]; [discriminate Hkey | reflexivity].
Qed.

Lemma applyEvolution_upsert (tag p c : string) (vfs : VFS) :
  tag = "UPDATE" \/ tag = "CREATE" ->
  startsWith p "/" = true ->
  applyEvolution (mkEvolution tag p c) vfs = Ok (<[p := c]> vfs).
Proof.
  intros Htag Hp. rewrite <- (assignProperty_absolute p c vfs Hp).
  destruct Htag as [-> | ->]; reflexivity.
Qed.

Lemma applyEvolution_delete (p c : string) (vfs : VFS) :
  applyEvolution (mkEvolution "DELETE" p c) vfs = Ok (delete p vfs).
Proof. reflexivity. Qed.

Lemma applyEvolution_unknown (ev : Evolution) (vfs : VFS) :
  ~ knownAction (action ev) ->
  applyEvolution ev vfs = Err ("Unknown action from AI: " ++ action ev).
Proof.
  intros Hk. unfold applyEvolution.
  destruct (String.eqb_spec (action ev) "UPDATE") as [E|_];
    [exfalso; apply Hk; left; exact E|].
  destruct (String.eqb_spec (action ev) "CREATE") as [E|_];
    [exfalso; apply Hk; right; left; exact E|].
  destruct (String.eqb_spec (action ev) "DELETE") as [E|_];
    [exfalso; apply Hk; right; right; exact E|].
  reflexivity.
Qed.

Lemma evolveCode_parsed (text : string) (ev : Evolution) :
  text <> EmptyString ->
  JSON_parse_evolution text = Some ev ->
  evolveCode (ServiceResponse (Some text))
  = Ok (if String.eqb (action ev) "DELETE"
        then mkEvolution (action ev) (filePath ev) EmptyString else ev).
Proof.
  intros Hne Hp. unfold evolveCode.
  destruct (String.eqb_spec text EmptyString) as [E|_]; [contradiction|].
  rewrite Hp. now destruct (String.eqb (action ev) "DELETE").
Qed.

(** C6: an Update or Create of a path [p] of the data model, that is, an
    absolute one, with content [c], as parsed from the service's reply and
    applied by [handleEvolveRequest], leaves a VFS where [p] reads exactly
    [c] and every other path reads what it read before. *)
Theorem C6_update_create_sets_exactly_one_path
    (st : BootloaderState) (target goal text tag p c : string) :
  tag = "UPDATE" \/ tag = "CREATE" ->
  startsWith p "/" = true ->
  goal <> EmptyString ->
  text <> EmptyString ->
  JSON_parse_evolution text = Some (mkEvolution tag p c) ->
  let st' := handleEvolveRequest st target goal (ServiceResponse (Some text)) in
  applyEvolution (mkEvolution tag p c) (projectFiles st) = Ok (projectFiles st')
  /\ projectFiles st' !! p = Some c
  /\ (forall q, q <> p -> projectFiles st' !! q = projectFiles st !! q)
  /\ bootError st' = None.
Proof.
  intros Htag Hp Hgoal Htext Hparse st'.
  assert (Hst : st' = mkBootloaderState (<[p := c]> (projectFiles st)) false None).
  { subst st'. unfold handleEvolveRequest.
    destruct (String.eqb_spec goal EmptyString) as [E|_]; [contradiction|].
    rewrite (evolveCode_parsed text _ Htext Hparse).
    assert (Hd : String.eqb tag "DELETE" = false) by (destruct Htag as [-> | ->]; reflexivity).
    cbn [action]. rewrite Hd.
    now rewrite (applyEvolution_upsert tag p c _ Htag Hp). }
  rewrite Hst. cbn [projectFiles bootError].
  split; [now apply applyEvolution_upsert|].
  split; [apply lookup_insert_eq|].
  split; [|reflexivity].
  intros q Hq. now apply lookup_insert_ne.
Qed.

(** C7: a Delete of path [p] has its content set to the empty string when
    it is received; applied, it leaves a VFS without [p] where every other
    path reads what it read before, and which is the VFS it started from
    when [p] was not there. *)
Theorem C7_delete_removes_exactly_one_path
    (st : BootloaderState) (target goal text p c : string) :
  goal <> EmptyString ->
  text <> EmptyString ->
  JSON_parse_evolution text = Some (mkEvolution "DELETE" p c) ->
  let st' := handleEvolveRequest st target goal (ServiceResponse (Some text)) in
  evolveCode (ServiceResponse (Some text)) = Ok (mkEvolution "DELETE" p EmptyString)
  /\ applyEvolution (mkEvolution "DELETE" p EmptyString) (projectFiles st) = Ok (projectFiles st')
  /\ projectFiles st' !! p = None
  /\ (forall q, q <> p -> projectFiles st' !! q = projectFiles st !! q)
  /\ (projectFiles st !! p = None -> projectFiles st' = projectFiles st).
Proof.
  intros Hgoal Htext Hparse st'.
  assert (Hev : evolveCode (ServiceResponse (Some text))
                = Ok (mkEvolution "DELETE" p EmptyString))
    by (rewrite (evolveCode_parsed text _ Htext Hparse); reflexivity).
  assert (Hst : st' = mkBootloaderState (delete p (projectFiles st)) false None).
  { subst st'. unfold handleEvolveRequest.
    destruct (String.eqb_spec goal EmptyString) as [E|_]; [contradiction|].
    now rewrite Hev. }
  rewrite Hst. cbn [projectFiles].
  split; [exact Hev|].
  split; [reflexivity|].
  split; [apply lookup_delete_eq|].
  split; [intros q Hq; now apply lookup_delete_ne|].
  intros Habs. now apply delete_id.
Qed.

(** C5: when the service's reply has no text, or parses to an action
    whose tag is none of UPDATE, CREATE and DELETE, [handleEvolveRequest]
    ends with the very VFS it started from and with an error shown: the
    message of the bootloader for an empty goal or an empty reply, and,
    for an unknown tag, the error the updater throws when React runs it,
    which the BIOS's error boundary shows. *)
Theorem C5_rejected_reply_leaves_vfs_unchanged
    (st : BootloaderState) (target goal : string) (reply : ServiceReply) :
  rejectedReply reply ->
  let st' := handleEvolveRequest st target goal reply in
  projectFiles st' = projectFiles st
  /\ (exists message,
        bootError st' = Some message
        \/ ErrorBoundary_error st target goal reply = Some message)
  /\ (goal <> EmptyString ->
      reply = ServiceResponse None \/ reply = ServiceResponse (Some EmptyString) ->
      bootError st' = Some "Evolution failed: Received an empty response from the AI.")
  /\ (goal <> EmptyString ->
      forall text evolution,
        reply = ServiceResponse (Some text) ->
        text <> EmptyString ->
        JSON_parse_evolution text = Some evolution ->
        ~ knownAction (action evolution) ->
        bootError st' = None
        /\ ErrorBoundary_error st target goal reply
           = Some ("Unknown action from AI: " ++ action evolution)).
Proof.
  intros Hrej st'. subst st'. unfold handleEvolveRequest, ErrorBoundary_error.
  destruct (String.eqb_spec goal EmptyString) as [Hg|Hg].
  { cbn. split; [reflexivity|]. split; [eauto|]. split; intros; contradiction. }
  assert (Hunknown : forall text ev,
            text <> EmptyString ->
            JSON_parse_evolution text = Some ev ->
            ~ knownAction (action ev) ->
            evolveCode (ServiceResponse (Some text)) = Ok ev).
  { intros text ev Htext Hparse Hk. rewrite (evolveCode_parsed text ev Htext Hparse).
    destruct (String.eqb_spec (action ev) "DELETE") as [E|_]; [|reflexivity].
    exfalso. apply Hk. right; right; exact E. }
  destruct Hrej as [-> | [-> | (text & ev & -> & Hparse & Hk)]].
  - cbn. split; [reflexivity|]. split; [eauto|]. split; [reflexivity|].
    intros _ text ev [=].
  - cbn. split; [reflexivity|]. split; [eauto|]. split; [reflexivity|].
    intros _ text ev [= <-] Hne. contradiction.
  - destruct (String.eqb_spec text EmptyString) as [->|Htext].
    + cbn. split; [reflexivity|]. split; [eauto|]. split; [reflexivity|].
      intros _ text ev' [= <-] Hne. contradiction.
    + rewrite (Hunknown text ev Htext Hparse Hk), (applyEvolution_unknown ev _ Hk).
      cbn. split; [reflexivity|]. split; [eauto|].
      split; [intros _ [[=] | [= E]]; contradiction|].
      intros _ text' ev' [= <-] _ Hparse' _.
      rewrite Hparse in Hparse'. injection Hparse' as <-. now split.
Qed.

End Evolution.

Lemma C6_update_create_sets_exactly_one_path_witness :
  let ev := mkEvolution "UPDATE" "/components/Editor.tsx" "edited" in
  let st := mkBootloaderState sampleProject false None in
  let st' := @handleEvolveRequest (replyingPlatform ev ∅) st "/boot/kernel.tsx" "goal"
               (ServiceResponse (Some "reply")) in
  projectFiles st' !! "/components/Editor.tsx" = Some "edited"
  /\ projectFiles st' !! "/boot/kernel.tsx" = Some "kernel".
Proof.
  pose proof (@C6_update_create_sets_exactly_one_path
                (replyingPlatform (mkEvolution "UPDATE" "/components/Editor.tsx" "edited") ∅)
                (mkBootloaderState sampleProject false None)
                "/boot/kernel.tsx" "goal" "reply" "UPDATE" "/components/Editor.tsx" "edited"
                (or_introl eq_refl) eq_refl) as W.
  destruct W as (_ & Hp & Hq & _); [discriminate | discriminate | reflexivity |].
  split; [exact Hp|].
  rewrite Hq; [reflexivity | discriminate].
Defined.

Lemma C7_delete_removes_exactly_one_path_witness :
  let ev := mkEvolution "DELETE" "/components/Editor.tsx" "ignored" in
  let st := mkBootloaderState sampleProject false None in
  let st' := @handleEvolveRequest (replyingPlatform ev ∅) st "/boot/kernel.tsx" "goal"
               (ServiceResponse (Some "reply")) in
  projectFiles st' !! "/components/Editor.tsx" = None
  /\ projectFiles st' !! "/boot/kernel.tsx" = Some "kernel".
Proof.
  pose proof (@C7_delete_removes_exactly_one_path
                (replyingPlatform (mkEvolution "DELETE" "/components/Editor.tsx" "ignored") ∅)
                (mkBootloaderState sampleProject false None)
                "/boot/kernel.tsx" "goal" "reply" "/components/Editor.tsx" "ignored") as W.
  destruct W as (_ & _ & Hp & Hq & _); [discriminate | discriminate | reflexivity |].
  split; [exact Hp|].
  rewrite Hq; [reflexivity | discriminate].
Defined.

Lemma C5_rejected_reply_leaves_vfs_unchanged_witness :
  let ev := mkEvolution "RENAME" "/components/Editor.tsx" "text" in
  let st := mkBootloaderState sampleProject false None in
  let st' := @handleEvolveRequest (replyingPlatform ev ∅) st "/boot/kernel.tsx" "goal"
               (ServiceResponse (Some "reply")) in
  projectFiles st' = sampleProject
  /\ @ErrorBoundary_error (replyingPlatform ev ∅) st "/boot/kernel.tsx" "goal"
       (ServiceResponse (Some "reply"))
     = Some "Unknown action from AI: RENAME".
Proof.
  assert (Hk : ~ knownAction "RENAME") by (intros [E | [E | E]]; discriminate E).
  destruct (@C5_rejected_reply_leaves_vfs_unchanged
              (replyingPlatform (mkEvolution "RENAME" "/components/Editor.tsx" "text") ∅)
              (mkBootloaderState sampleProject false None) "/boot/kernel.tsx" "goal"
              (ServiceResponse (Some "reply"))) as (Hfiles & _ & _ & Hboundary).
  - right; right. exists "reply", (mkEvolution "RENAME" "/components/Editor.tsx" "text").
    split; [reflexivity|]. split; [reflexivity | exact Hk].
  - split; [exact Hfiles|].
    apply (Hboundary ltac:(discriminate) "reply"
             (mkEvolution "RENAME" "/components/Editor.tsx" "text") eq_refl
             ltac:(discriminate) eq_refl Hk).
Defined.

(** ** Boot-critical paths *)

(** C3 (counterexample): a Delete action that the service returns for the
    boot-critical path /boot/kernel.tsx is applied, and the path is gone
    from the VFS. *)
Lemma C3_boot_critical_path_deleted_by_evolution :
  let ev := mkEvolution "DELETE" "/boot/kernel.tsx" EmptyString in
  let st := mkBootloaderState sampleProject false None in
  let st' := @handleEvolveRequest (replyingPlatform ev ∅) st "/boot/kernel.tsx" "goal"
               (ServiceResponse (Some "reply")) in
  is_boot_critical "/boot/kernel.tsx" = true
  /\ projectFiles st !! "/boot/kernel.tsx" = Some "kernel"
  /\ projectFiles st' !! "/boot/kernel.tsx" = None.
Proof. repeat split; vm_compute; reflexivity. Qed.

(** C3 (amended): a path with the /boot/ prefix never carries a delete
    control in the file explorer; the evolution engine has no such guard:
    a Delete action for that path is applied like any other and leaves
    the VFS without it. *)
Theorem C3_boot_critical_guard_is_in_the_explorer_only
    (files : VFS) (p c : string) :
  is_boot_critical p = true ->
  (p ∉ FileExplorer_deletable files)
  /\ (forall q, q ∈ FileExplorer_deletable files <->
                is_Some (files !! q) /\ is_boot_critical q = false)
  /\ exists files', applyEvolution (mkEvolution "DELETE" p c) files = Ok files'
                    /\ files' !! p = None.
Proof.
  intros Hboot. unfold FileExplorer_deletable.
  split; [|split].
  - rewrite elem_of_filter. intros [Hf _]. congruence.
  - intros q. rewrite elem_of_filter, elem_of_dom. tauto.
  - exists (delete p files). split; [reflexivity | apply lookup_delete_eq].
Qed.

Lemma C3_boot_critical_guard_is_in_the_explorer_only_witness :
  ("/boot/kernel.tsx" ∉ FileExplorer_deletable sampleProject)
  /\ exists files', applyEvolution (mkEvolution "DELETE" "/boot/kernel.tsx" EmptyString)
                      sampleProject = Ok files'
                    /\ files' !! "/boot/kernel.tsx" = None.
Proof.
  destruct (C3_boot_critical_guard_is_in_the_explorer_only
              sampleProject "/boot/kernel.tsx" EmptyString eq_refl) as (Hn & _ & Hd).
  split; [exact Hn | exact Hd].
Defined.

(** ** The batch protocol *)

Section Batch.

Lemma onVfsBatchUpdate_cons (c : Change) (cs : list Change) (vfs : VFS) :
  onVfsBatchUpdate (c :: cs) vfs
  = onVfsBatchUpdate cs (<[change_filePath c := change_content c]> vfs).
Proof. reflexivity. Qed.

Lemma onVfsBatchUpdate_frame (cs : list Change) (vfs : VFS) (q : string) :
  q ∉ change_filePath <$> cs ->
  onVfsBatchUpdate cs vfs !! q = vfs !! q.
Proof.
  revert vfs; induction cs as [|c cs IH]; intros vfs Hq; [reflexivity|].
  rewrite onVfsBatchUpdate_cons, fmap_cons, not_elem_of_cons in *.
  destruct Hq as [Hne Hq]. rewrite IH by exact Hq.
  now apply lookup_insert_ne.
Qed.

Lemma onVfsBatchUpdate_listed (cs : list Change) (vfs : VFS) (c : Change) :
  NoDup (change_filePath <$> cs) ->
  c ∈ cs ->
  onVfsBatchUpdate cs vfs !! change_filePath c = Some (change_content c).
Proof.
  revert vfs; induction cs as [|c0 cs IH]; intros vfs Hnd Hin.
  - now apply elem_of_nil in Hin.
  - rewrite fmap_cons, NoDup_cons in Hnd. destruct Hnd as [Hfresh Hnd].
    rewrite onVfsBatchUpdate_cons.
    apply elem_of_cons in Hin as [-> | Hin].
    + rewrite onVfsBatchUpdate_frame by exact Hfresh. apply lookup_insert_eq.
    + now apply IH.
Qed.

(** C8: for changes with pairwise distinct paths, the batch leaves a VFS
    where every listed path reads its listed content and every other path
    reads what it read before, whatever the order of the changes. *)
Theorem C8_batch_upserts_listed_paths_in_any_order
    (changes : list Change) (vfs : VFS) :
  NoDup (change_filePath <$> changes) ->
  handleEvolve_apply (Some changes) vfs = onVfsBatchUpdate changes vfs
  /\ (forall c, c ∈ changes ->
        onVfsBatchUpdate changes vfs !! change_filePath c = Some (change_content c))
  /\ (forall q, q ∉ change_filePath <$> changes ->
        onVfsBatchUpdate changes vfs !! q = vfs !! q)
  /\ (forall changes', changes' ≡ₚ changes ->
        onVfsBatchUpdate changes' vfs = onVfsBatchUpdate changes vfs).
Proof.
  intros Hnd. split; [now destruct changes|].
  split; [intros c Hc; now apply onVfsBatchUpdate_listed|].
  split; [intros q Hq; now apply onVfsBatchUpdate_frame|].
  intros changes' Hperm. apply map_eq. intros q.
  assert (Hnd' : NoDup (change_filePath <$> changes')) by now rewrite Hperm.
  destruct (decide (q ∈ change_filePath <$> changes)) as [Hin | Hout].
  - apply list_elem_of_fmap in Hin as (c & -> & Hc).
    rewrite (onVfsBatchUpdate_listed changes vfs c Hnd Hc).
    apply onVfsBatchUpdate_listed; [exact Hnd'|]. now rewrite Hperm.
  - rewrite (onVfsBatchUpdate_frame changes vfs q Hout).
    apply onVfsBatchUpdate_frame. now rewrite Hperm.
Qed.

End Batch.

Lemma C8_batch_upserts_listed_paths_in_any_order_witness :
  let changes := [mkChange "/App.tsx" "app"; mkChange "/index.tsx" "index"] in
  onVfsBatchUpdate changes sampleProject !! "/index.tsx" = Some "index"
  /\ onVfsBatchUpdate (rev changes) sampleProject = onVfsBatchUpdate changes sampleProject.
Proof.
  destruct (C8_batch_upserts_listed_paths_in_any_order
              [mkChange "/App.tsx" "app"; mkChange "/index.tsx" "index"] sampleProject)
    as (_ & Hl & _ & Hp).
  - cbn. apply NoDup_cons. split; [|apply NoDup_singleton].
    rewrite list_elem_of_singleton. discriminate.
  - split.
    + apply (Hl (mkChange "/index.tsx" "index")). apply elem_of_cons. right.
      apply list_elem_of_singleton. reflexivity.
    + apply Hp. cbn. apply Permutation_swap.
Defined.

(** ** Start-up *)

(** C10: when the read of the persisted project throws, finds no value,
    or finds a text that does not parse, the BIOS starts from the seed
    project. *)
Theorem C10_startup_falls_back_to_seed `{Platform}
    (INITIAL_PROJECT : VFS) (read : StorageRead) :
  read = ReadThrows
  \/ read = ReadNull
  \/ (exists saved, read = ReadValue saved /\ JSON_parse_vfs saved = None) ->
  initialProjectFiles INITIAL_PROJECT read = INITIAL_PROJECT.
Proof.
  intros [-> | [-> | (saved & -> & Hparse)]]; try reflexivity.
  cbn. rewrite Hparse. now destruct (String.eqb saved EmptyString).
Qed.

Lemma C10_startup_falls_back_to_seed_witness :
  @initialProjectFiles plainPlatform sampleProject (ReadValue "not json") = sampleProject.
Proof.
  apply (@C10_startup_falls_back_to_seed plainPlatform sampleProject (ReadValue "not json")).
  right; right. exists "not json". split; reflexivity.
Defined.

(** ** The sanitizer, continued *)

(** C9 (code bug): the sanitizer is not idempotent and does not leave
    well-formed escapes alone.  A backslash followed by w becomes an
    escaped backslash followed by w, a text whose escapes are all well
    formed; on that text the sanitizer doubles the second backslash of the
    pair, a backslash that is part of a valid escape sequence, and the
    result is the text of three backslashes and w. *)
Lemma C9_sanitizer_escapes_an_escaped_backslash :
  let input := String backslash "w" in
  let once := String backslash (String backslash "w") in
  let twice := String backslash (String backslash (String backslash "w")) in
  sanitizeCodeForBabel input = once
  /\ escapesWellFormed 0 once = true
  /\ sanitizeCodeForBabel once = twice
  /\ sanitizeCodeForBabel (sanitizeCodeForBabel input) <> sanitizeCodeForBabel input.
Proof. repeat split. vm_compute. discriminate. Qed.

(** ** Resolution in the bootloader's loader *)

Section Resolution.
Context `{Platform}.

Lemma firstPresent_None_iff (files : VFS) (paths : list string) :
  firstPresent files paths = None <-> Forall (fun q => files !! q = None) paths.
Proof.
  induction paths as [|q paths IH]; simpl.
  - split; [constructor | reflexivity].
  - destruct (files !! q) eqn:E.
    + split; [discriminate|]. intros HF. inversion HF; congruence.
    + rewrite IH. split; [now constructor | intros HF; now inversion HF].
Qed.

Lemma firstPresent_Some_iff (files : VFS) (paths : list string) (p : string) :
  firstPresent files paths = Some p <->
  exists before after,
    paths = (before ++ p :: after)%list
    /\ is_Some (files !! p)
    /\ Forall (fun q => files !! q = None) before.
Proof.
  induction paths as [|q paths IH]; simpl.
  - split; [discriminate|]. intros (before & after & Heq & _).
    now destruct before.
  - destruct (files !! q) eqn:E.
    + split.
      * intros [= <-]. exists [], paths. rewrite E. repeat split; eauto.
      * intros (before & after & Heq & Hp & Hb).
        destruct before as [|b before]; simplify_eq/=; [reflexivity|].
        inversion Hb; congruence.
    + rewrite IH. split.
      * intros (before & after & -> & Hp & Hb).
        exists (q :: before), after. repeat split; [assumption|now constructor].
      * intros (before & after & Heq & Hp & Hb).
        destruct before as [|b before]; simplify_eq/=.
        -- rewrite E in Hp. now destruct Hp.
        -- inversion Hb; subst. now exists before, after.
Qed.

Lemma absolutePaths_no_empty_path (files : VFS) :
  absolutePaths files -> files !! EmptyString = None.
Proof.
  intros Habs. destruct (files !! EmptyString) eqn:E; [|reflexivity].
  specialize (Habs EmptyString (mk_is_Some _ _ E)). discriminate Habs.
Qed.

Lemma resolve_found (files : VFS) (importerPath importPath b p : string) :
  files !! EmptyString = None ->
  URL_pathname importPath (importerBase importerPath) = Some b ->
  firstPresent files (possiblePaths b) = Some p ->
  resolve files importerPath importPath = Ok p.
Proof.
  intros Hne Hb Hp. unfold resolve. rewrite Hb, Hp. cbn.
  destruct (String.eqb_spec p EmptyString) as [->|_]; [|reflexivity].
  apply firstPresent_Some_iff in Hp as (_ & _ & _ & [v Hv] & _). congruence.
Qed.

Lemma resolve_not_found (files : VFS) (importerPath importPath b : string) :
  URL_pathname importPath (importerBase importerPath) = Some b ->
  firstPresent files (possiblePaths b) = None ->
  resolve files importerPath importPath = Err (ModuleNotFound importPath importerPath b).
Proof. intros Hb Hp. unfold resolve. now rewrite Hb, Hp. Qed.

(** C1: for a specifier other than the host binding, over a VFS of
    absolute paths, the loader probes the five candidates built on the
    resolved base path, in order; it resolves to the first one present in
    the VFS, and fails with ModuleNotFound exactly when none of the five
    is present; [customRequire] stops with that error before touching the
    module cache. *)
Theorem C1_resolve_probes_five_candidates_in_order
    (files : VFS) (importerPath importPath : string) :
  absolutePaths files ->
  importPath <> "react" ->
  match URL_pathname importPath (importerBase importerPath) with
  | None =>
      resolve files importerPath importPath
      = Err (InvalidURL importPath (importerBase importerPath))
  | Some b =>
      possiblePaths b = [b; b ++ ".tsx"; b ++ ".ts"; b ++ "/index.tsx"; b ++ "/index.ts"]
      /\ (forall p,
            resolve files importerPath importPath = Ok p <->
            exists before after,
              possiblePaths b = (before ++ p :: after)%list
              /\ is_Some (files !! p)
              /\ Forall (fun q => files !! q = None) before)
      /\ (resolve files importerPath importPath
           = Err (ModuleNotFound importPath importerPath b)
           <-> Forall (fun q => files !! q = None) (possiblePaths b))
      /\ (forall e, resolve files importerPath importPath = Err e ->
             e = ModuleNotFound importPath importerPath b)
  end
  /\ (forall fuel st e,
        resolve files importerPath importPath = Err e ->
        customRequire (S fuel) files importerPath importPath st = Some (Err e, st)).
Proof.
  intros Habs Hspec.
  pose proof (absolutePaths_no_empty_path files Habs) as Hne.
  split.
  - destruct (URL_pathname importPath (importerBase importerPath)) as [b|] eqn:Hb;
      [|unfold resolve; now rewrite Hb].
    split; [reflexivity|].
    destruct (firstPresent files (possiblePaths b)) as [p0|] eqn:Hfp.
    + pose proof (resolve_found files _ _ b p0 Hne Hb Hfp) as Hres.
      rewrite Hres. split; [|split].
      * intros p. rewrite <- firstPresent_Some_iff, Hfp.
        split; intros [= ->]; reflexivity.
      * rewrite <- firstPresent_None_iff, Hfp. split; discriminate.
      * discriminate.
    + pose proof (resolve_not_found files _ _ b Hb Hfp) as Hres.
      rewrite Hres. split; [|split].
      * intros p. rewrite <- firstPresent_Some_iff, Hfp. split; discriminate.
      * rewrite <- firstPresent_None_iff. tauto.
      * now intros e [= <-].
  - intros fuel st e Hres. cbn [customRequire].
    destruct (String.eqb_spec importPath "react") as [E|_]; [contradiction|].
    now rewrite Hres.
Qed.

End Resolution.

Lemma extensionProject_absolute : absolutePaths extensionProject.
Proof.
  intros p [v Hv]. unfold extensionProject in Hv.
  apply lookup_insert_Some in Hv as [[<- _] | [_ Hv]]; [reflexivity|].
  now rewrite lookup_empty in Hv.
Qed.

Lemma C1_resolve_probes_five_candidates_in_order_witness :
  @resolve plainPlatform extensionProject "/boot/kernel.tsx" "/a" = Ok "/a.tsx".
Proof.
  destruct (@C1_resolve_probes_five_candidates_in_order plainPlatform
              extensionProject "/boot/kernel.tsx" "/a"
              extensionProject_absolute) as [Hres _]; [discriminate|].
  cbn in Hres. destruct Hres as (_ & Hok & _).
  apply Hok. exists ["/a"], ["/a.ts"; "/a/index.tsx"; "/a/index.ts"].
  split; [reflexivity|]. split; [now exists "export default 1"|].
  repeat constructor.
Defined.

(** ** Resolution inside the bundle *)

Section BundleResolution.
Context `{Platform}.




Lemma transpiledVFS_lookup (files : VFS) (modules : gmap string string) (p : string) :
  transpiledVFS files = Ok modules ->
  modules !! p
  = files !! p ≫= (fun src => if isTypeScriptPath p then Babel_transform src p else None).
Proof.
  unfold transpiledVFS. case_bool_decide; [discriminate|].
  intros [= <-]. apply map_lookup_imap.
Qed.




Lemma bundleResolve_Ok (modules : gmap string string) (path relativePath p : string) :
  bundleResolve modules path relativePath = Ok p ->
  p = resolvePath modules path relativePath /\ tableTruthy modules p = true.
Proof.
  unfold bundleResolve.
  destruct (tableTruthy modules (resolvePath modules path relativePath)) eqn:E;
    cbn; [|discriminate].
  intros [= <-]. now split.
Qed.

Lemma tableTruthy_cases (table : gmap string string) (key : string) :
  tableTruthy table key = true ->
  truthy (table !! key) = true \/ (table !! key = None /\ inheritedName key = true).
Proof. unfold tableTruthy, truthy. destruct (table !! key); auto. Qed.



End BundleResolution.



(** ** Loading, and the cycle *)

Lemma uncached_log (files : VFS) (e : event) (st : LoaderState) :
  uncached files (log e st) = uncached files st.
Proof. reflexivity. Qed.

Lemma uncached_mono (files : VFS) (st st' : LoaderState) :
  dom (moduleCache st) ⊆ dom (moduleCache st') ->
  uncached files st' <= uncached files st.
Proof.
  intros Hsub. unfold uncached. apply subseteq_size.
  intros x. rewrite !elem_of_difference. intros [Hx Hn].
  split; [exact Hx|]. intros Hc. apply Hn, Hsub, Hc.
Qed.

Lemma uncached_cacheFreshModule (files : VFS) (p : string) (st : LoaderState) :
  is_Some (files !! p) ->
  moduleCache st !! p = None ->
  uncached files (snd (cacheFreshModule p st)) < uncached files st.
Proof.
  intros Hin Hout. unfold uncached. cbn. apply subset_size.
  apply elem_of_dom in Hin. apply not_elem_of_dom in Hout.
  rewrite dom_insert_L. split.
  - intros x. rewrite !elem_of_difference, elem_of_union. intros [Hx Hn].
    split; [exact Hx|]. intros Hc. apply Hn. now right.
  - intros Hsub. specialize (Hsub p). rewrite !elem_of_difference in Hsub.
    destruct Hsub as [_ Hn]; [now split|].
    apply Hn, elem_of_union. left. now apply elem_of_singleton.
Qed.

Section Loading.
Context `{Platform}.

(** One unfolding of [customRequire], with the nested loader left
    folded. *)
Lemma customRequire_S (fuel : nat) (files : VFS) (importerPath importPath : string)
    (st : LoaderState) :
  customRequire (S fuel) files importerPath importPath st
  = if String.eqb importPath "react" then Some (Ok VReact, st)
    else
      match resolve files importerPath importPath with
      | Err e => Some (Err e, st)
      | Ok finalResolvedPath =>
          match moduleCache st !! finalResolvedPath with
          | Some cell => Some (Ok (VObject (exports cell)), st)
          | None =>
              match files !! finalResolvedPath
                    ≫= (fun src => Babel_transform src finalResolvedPath) with
              | None => Some (Err (TransformError finalResolvedPath), st)
              | Some transformedCode =>
                  match Function_body transformedCode with
                  | None =>
                      Some (Err (FunctionError finalResolvedPath),
                            snd (cacheFreshModule finalResolvedPath st))
                  | Some body =>
                      match runBody (customRequire fuel files finalResolvedPath)
                                    finalResolvedPath (List.length (objects st)) body
                                    (log (EvExecuting finalResolvedPath)
                                         (snd (cacheFreshModule finalResolvedPath st))) with
                      | None => None
                      | Some (Err e, st2) => Some (Err e, st2)
                      | Some (Ok _, st2) =>
                          Some (Ok (VObject (List.length (objects st))),
                                log (EvExecuted finalResolvedPath) st2)
                      end
                  end
              end
          end
      end.
Proof. reflexivity. Qed.

Lemma customRequire_cached (fuel : nat) (files : VFS) (importerPath importPath p : string)
    (cell : ModuleCell) (st : LoaderState) :
  importPath <> "react" ->
  resolve files importerPath importPath = Ok p ->
  moduleCache st !! p = Some cell ->
  customRequire (S fuel) files importerPath importPath st
  = Some (Ok (VObject (exports cell)), st).
Proof.
  intros Hspec Hres Hc. rewrite customRequire_S.
  destruct (String.eqb_spec importPath "react") as [E|_]; [contradiction|].
  now rewrite Hres, Hc.
Qed.

Lemma customRequire_fresh (fuel : nat) (files : VFS) (importerPath importPath p : string)
    (src transformedCode : string) (body : list stmt) (st : LoaderState) :
  importPath <> "react" ->
  resolve files importerPath importPath = Ok p ->
  moduleCache st !! p = None ->
  files !! p = Some src ->
  Babel_transform src p = Some transformedCode ->
  Function_body transformedCode = Some body ->
  customRequire (S fuel) files importerPath importPath st
  = match runBody (customRequire fuel files p) p (List.length (objects st)) body
            (log (EvExecuting p) (snd (cacheFreshModule p st))) with
    | None => None
    | Some (Err e, st2) => Some (Err e, st2)
    | Some (Ok _, st2) => Some (Ok (VObject (List.length (objects st))), log (EvExecuted p) st2)
    end.
Proof.
  intros Hspec Hres Hc Hsrc Hbabel Hfun. rewrite customRequire_S.
  destruct (String.eqb_spec importPath "react") as [E|_]; [contradiction|].
  rewrite Hres, Hc, Hsrc. cbn [mbind option_bind]. now rewrite Hbabel, Hfun.
Qed.

Lemma runBody_more_fuel (require require' : string -> Load value)
    (self : string) (ref : nat) (body : list stmt) (st : LoaderState)
    (r : result LoadError unit * LoaderState) :
  (forall specifier st0 r0, require specifier st0 = Some r0 -> require' specifier st0 = Some r0) ->
  runBody require self ref body st = Some r ->
  runBody require' self ref body st = Some r.
Proof.
  intros Hreq. revert st. induction body as [|[specifier | key val] body IH]; intros st; cbn.
  - trivial.
  - destruct (require specifier st) as [[[v|e] st']|] eqn:E; [| |discriminate];
      rewrite (Hreq _ _ _ E); [apply IH | trivial].
  - apply IH.
Qed.

(** More fuel never changes a result that was reached. *)
Lemma customRequire_more_fuel (fuel : nat) (files : VFS) (importerPath importPath : string)
    (st : LoaderState) (r : result LoadError value * LoaderState) :
  customRequire fuel files importerPath importPath st = Some r ->
  customRequire (S fuel) files importerPath importPath st = Some r.
Proof.
  revert importerPath importPath st r.
  induction fuel as [|fuel IH]; intros importerPath importPath st r; [discriminate|].
  rewrite (customRequire_S (S fuel)), (customRequire_S fuel).
  destruct (String.eqb importPath "react"); [trivial|].
  destruct (resolve files importerPath importPath) as [p|e]; [|trivial].
  destruct (moduleCache st !! p); [trivial|].
  destruct (files !! p ≫= _) as [transformedCode|]; [|trivial].
  destruct (Function_body transformedCode) as [body|]; [|trivial].
  destruct (runBody (customRequire fuel files p) p _ body _) as [[[u|e] st2]|] eqn:E;
    [| |discriminate];
    rewrite (runBody_more_fuel _ (customRequire (S fuel) files p) _ _ _ _ _
               (fun specifier st0 r0 => IH p specifier st0 r0) E);
    trivial.
Qed.

Lemma runBody_returns (files : VFS) (bound : nat) (require : string -> Load value)
    (self : string) (ref : nat) (body : list stmt) (st : LoaderState) :
  (forall specifier st0, uncached files st0 <= bound ->
     exists r st1, require specifier st0 = Some (r, st1)
                   /\ dom (moduleCache st0) ⊆ dom (moduleCache st1)) ->
  uncached files st <= bound ->
  exists r st', runBody require self ref body st = Some (r, st')
                /\ dom (moduleCache st) ⊆ dom (moduleCache st').
Proof.
  intros Hreq. revert st.
  induction body as [|[specifier | key val] body IH]; intros st Hst; cbn.
  - eauto.
  - destruct (Hreq specifier st Hst) as ([v|e] & st1 & -> & Hsub); [|eauto].
    destruct (IH (log (EvRequired self specifier v) st1)) as (r & st2 & -> & Hsub2).
    + rewrite uncached_log. pose proof (uncached_mono files st st1 Hsub). lia.
    + exists r, st2. split; [reflexivity|]. cbn in Hsub2. set_solver.
  - destruct (IH (setProperty ref key val st)) as (r & st2 & -> & Hsub2); [exact Hst|].
    eauto.
Qed.

(** Loading always returns: with more fuel than there are files outside
    the cache, [customRequire] gives a result, because a module enters
    the cache before its body runs and so is executed at most once. *)
Theorem customRequire_returns (fuel : nat) (files : VFS) (importerPath importPath : string)
    (st : LoaderState) :
  uncached files st < fuel ->
  exists r st', customRequire fuel files importerPath importPath st = Some (r, st')
                /\ dom (moduleCache st) ⊆ dom (moduleCache st').
Proof.
  revert importerPath importPath st.
  induction fuel as [|fuel IH]; intros importerPath importPath st Hfuel; [lia|].
  rewrite customRequire_S.
  destruct (String.eqb importPath "react"); [eauto|].
  destruct (resolve files importerPath importPath) as [p|e]; [|eauto].
  destruct (moduleCache st !! p) eqn:Hcache; [eauto|].
  destruct (files !! p) as [src|] eqn:Hsrc; cbn [mbind option_bind]; [|eauto].
  destruct (Babel_transform src p) as [transformedCode|]; [|eauto].
  pose proof (uncached_cacheFreshModule files p st (mk_is_Some _ _ Hsrc) Hcache) as Hless.
  set (st1 := snd (cacheFreshModule p st)) in *.
  assert (Hsub1 : dom (moduleCache st) ⊆ dom (moduleCache st1)).
  { subst st1. cbn. rewrite dom_insert_L. set_solver. }
  destruct (Function_body transformedCode) as [body|]; [|eauto].
  destruct (runBody_returns files (uncached files st1) (customRequire fuel files p)
              p (List.length (objects st)) body (log (EvExecuting p) st1))
    as ([u|e] & st2 & -> & Hsub2).
  - intros specifier st0 Hst0. apply IH. lia.
  - now rewrite uncached_log.
  - eexists _, _. split; [reflexivity|]. cbn in Hsub2 |- *. set_solver.
  - eexists _, _. split; [reflexivity|]. cbn in Hsub2 |- *. set_solver.
Qed.

(** C2: in the VFS of the two files /a and /b that require each other,
    loading /a returns for every fuel of three or more; each body is
    entered once, /a then /b; the exports object that the require inside
    /b got back is the one the load of /a returns and the cache holds for
    /a; and each module was put into the cache before its body was
    entered. *)
Theorem C2_cycle_terminates_with_shared_exports (codeA codeB : string) :
  URL_pathname "/a" "file:///" = Some "/a" ->
  URL_pathname "/b" "file:///" = Some "/b" ->
  Babel_transform (requireCall "/b") "/a" = Some codeA ->
  Function_body codeA = Some [SRequire "/b"] ->
  Babel_transform (requireCall "/a") "/b" = Some codeB ->
  Function_body codeB = Some [SRequire "/a"] ->
  exists ref st',
    (forall fuel, 3 <= fuel ->
       customRequire fuel cycleVFS "/a" "/a" emptyLoaderState = Some (Ok (VObject ref), st'))
    /\ executions (trace st') = ["/a"; "/b"]
    /\ observedBy "/b" (trace st') = [("/a", VObject ref)]
    /\ moduleCache st' !! "/a" = Some (mkModuleCell ref)
    /\ (exists mid rest,
          trace st' = ([EvCached "/a" ref; EvExecuting "/a"] ++ mid
                       ++ [EvExecuting "/b"; EvRequired "/b" "/a" (VObject ref)] ++ rest)%list).
Proof.
  intros HurlA HurlB HbabelA HfunA HbabelB HfunB.
  exists 0, cycleFinalState.
  split; [|split; [|split; [|split]]].
  - intros fuel Hfuel.
    destruct fuel as [|[|[|n]]]; [lia | lia | lia |].
    assert (HresA : forall importer, importerBase importer = "file:///" ->
                      resolve cycleVFS importer "/a" = Ok "/a").
    { intros importer Hb. unfold resolve. rewrite Hb, HurlA. reflexivity. }
    assert (HresB : resolve cycleVFS "/a" "/b" = Ok "/b").
    { unfold resolve. change (importerBase "/a") with "file:///". rewrite HurlB.
      reflexivity. }
    rewrite (customRequire_fresh _ cycleVFS "/a" "/a" "/a" (requireCall "/b") codeA
               [SRequire "/b"] emptyLoaderState);
      [|discriminate | now apply HresA | reflexivity | reflexivity | assumption | assumption].
    cbn [runBody].
    rewrite (customRequire_fresh _ cycleVFS "/a" "/b" "/b" (requireCall "/a") codeB
               [SRequire "/a"]);
      [|discriminate | exact HresB | reflexivity | reflexivity | assumption | assumption].
    cbn [runBody].
    rewrite (customRequire_cached _ cycleVFS "/b" "/a" "/a" (mkModuleCell 0));
      [|discriminate | now apply HresA | reflexivity].
    reflexivity.
  - reflexivity.
  - reflexivity.
  - reflexivity.
  - exists [EvCached "/b" 1],
           [EvExecuted "/b"; EvRequired "/a" "/b" (VObject 1); EvExecuted "/a"].
    reflexivity.
Qed.

End Loading.

Lemma C2_cycle_terminates_with_shared_exports_witness :
  exists ref st',
    @customRequire plainPlatform 3 cycleVFS "/a" "/a" emptyLoaderState
    = Some (Ok (VObject ref), st')
    /\ observedBy "/b" (trace st') = [("/a", VObject ref)].
Proof.
  destruct (@C2_cycle_terminates_with_shared_exports plainPlatform
              (requireCall "/b" ++ ";") (requireCall "/a" ++ ";"))
    as (ref & st' & Hload & _ & Hobs & _); try reflexivity.
  exists ref, st'. split; [apply Hload; lia | exact Hobs].
Defined.

(** The bundle handles the same cycle the same way: the entry module is
    in the cache before it runs, and the require of the entry inside its
    sibling gets the entry's own exports object back. *)
Lemma bundle_cycle_shares_exports :
  exists st',
    @bundleAndRun plainPlatform 2 bundleCycleProject emptyLoaderState = Some (Ok tt, st')
    /\ executions (trace st') = ["/index.tsx"; "/b.tsx"]
    /\ observedBy "/b.tsx" (trace st') = [("./index", VObject 0)]
    /\ moduleCache st' !! "/index.tsx" = Some (mkModuleCell 0).
Proof. eexists. split; [vm_compute; reflexivity|]. repeat split. Qed.

(* ===================================================================== *)
(** * Further properties of the code *)
(* ===================================================================== *)

(** ** Splitting and joining paths *)

Section Paths.

Lemma split_nonempty (c : ascii) (s : string) : split c s <> [].
Proof.
  destruct s as [|a rest]; cbn; [discriminate|].
  destruct (Ascii.eqb a c); [discriminate|].
  destruct (split c rest); discriminate.
Qed.

Lemma join_cons (sep x : string) (l : list string) :
  l <> [] -> join sep (x :: l) = x ++ sep ++ join sep l.
Proof. destruct l; [contradiction | reflexivity]. Qed.

Lemma join_split (c : ascii) (s : string) :
  join (String c EmptyString) (split c s) = s.
Proof.
  induction s as [|a rest IH]; [reflexivity|]. cbn [split].
  destruct (Ascii.eqb_spec a c) as [->|Hne].
  - rewrite join_cons by apply split_nonempty. cbn. now rewrite IH.
  - destruct (split c rest) as [|seg segs] eqn:E; [now apply split_nonempty in E|].
    destruct segs as [|seg' segs].
    + cbn in IH |- *. now rewrite IH.
    + rewrite join_cons in IH |- * by discriminate. cbn. now rewrite <- IH.
Qed.

Lemma split_no_sep (c : ascii) (s : string) :
  hasChar c s = false -> split c s = [s].
Proof.
  induction s as [|a rest IH]; [reflexivity|]. cbn.
  intros Hno. apply orb_false_iff in Hno as [Ha Hrest].
  now rewrite Ha, (IH Hrest).
Qed.

Lemma split_app_sep (c : ascii) (x r : string) :
  split c (x ++ String c r) = (split c x ++ split c r)%list.
Proof.
  induction x as [|a x IH].
  - change (EmptyString ++ String c r) with (String c r).
    cbn [split app]. now rewrite Ascii.eqb_refl.
  - change (String a x ++ String c r) with (String a (x ++ String c r)).
    cbn [split]. rewrite IH.
    destruct (Ascii.eqb a c); [reflexivity|].
    destruct (split c x) as [|seg segs] eqn:E; [now apply split_nonempty in E|].
    reflexivity.
Qed.

Lemma split_join (c : ascii) (l : list string) :
  l <> [] ->
  Forall (fun x => hasChar c x = false) l ->
  split c (join (String c EmptyString) l) = l.
Proof.
  induction l as [|x l IH]; [contradiction|]. intros _ Hall.
  inversion Hall as [|? ? Hx Hl]; subst.
  destruct l as [|y l]; [now apply split_no_sep|].
  rewrite join_cons by discriminate.
  change (x ++ String c EmptyString ++ join (String c EmptyString) (y :: l))
    with (x ++ String c (join (String c EmptyString) (y :: l))).
  rewrite split_app_sep, (split_no_sep c x Hx), IH; [reflexivity | discriminate | exact Hl].
Qed.

Lemma hasChar_last_occurrence (c : ascii) (s : string) :
  hasChar c s = true ->
  exists pre post,
    s = pre ++ String c post
    /\ hasChar c post = false
    /\ lastIndexOf c s = Z.of_nat (String.length pre).
Proof.
  induction s as [|a rest IH]; [discriminate|]. cbn [hasChar lastIndexOf].
  destruct (hasChar c rest) eqn:Hrest.
  - intros _. destruct (IH eq_refl) as (pre & post & -> & Hpost & Hidx).
    exists (String a pre), post. split; [reflexivity|]. split; [exact Hpost|].
    rewrite Hidx. destruct (Z.leb_spec 0 (Z.of_nat (String.length pre))); [|lia].
    cbn [String.length]. lia.
  - rewrite orb_false_r. intros Ha. apply Ascii.eqb_eq in Ha. subst a.
    exists EmptyString, rest. split; [reflexivity|]. split; [exact Hrest|].
    assert (Hneg : lastIndexOf c rest = (-1)%Z).
    { clear IH. induction rest as [|b rest IHr]; [reflexivity|]. cbn in Hrest |- *.
      apply orb_false_iff in Hrest as [Hb Hr]. rewrite (IHr Hr), Hb. reflexivity. }
    rewrite Hneg, Ascii.eqb_refl. reflexivity.
Qed.

Lemma lastIndexOf_absent (c : ascii) (s : string) :
  hasChar c s = false -> lastIndexOf c s = (-1)%Z.
Proof.
  induction s as [|b rest IH]; [reflexivity|]. cbn. intros Hno.
  apply orb_false_iff in Hno as [Hb Hr]. now rewrite (IH Hr), Hb.
Qed.

Lemma substring_all (s : string) : String.substring 0 (String.length s) s = s.
Proof. induction s as [|a s IH]; [reflexivity|]. cbn. now rewrite IH. Qed.

Lemma dropChars_app (pre post : string) :
  dropChars (String.length pre) (pre ++ post) = post.
Proof.
  unfold dropChars. induction pre as [|a pre IH].
  - cbn [String.length append]. rewrite Nat.sub_0_r. apply substring_all.
  - change (String a pre ++ post) with (String a (pre ++ post)).
    cbn [String.length Nat.sub String.substring]. exact IH.
Qed.

Lemma length_append (s t : string) :
  String.length (s ++ t) = String.length s + String.length t.
Proof.
  induction s as [|a s IH]; [reflexivity|].
  change (String a s ++ t) with (String a (s ++ t)). cbn [String.length]. now rewrite IH.
Qed.

Lemma append_assoc (s t u : string) : (s ++ t) ++ u = s ++ (t ++ u).
Proof.
  induction s as [|a s IH]; [reflexivity|].
  change ((String a s ++ t) ++ u) with (String a ((s ++ t) ++ u)).
  change (String a s ++ t ++ u) with (String a (s ++ t ++ u)). now rewrite IH.
Qed.

Lemma dropChars_past_sep (c : ascii) (pre post : string) :
  dropChars (S (String.length pre)) (pre ++ String c post) = post.
Proof.
  replace (S (String.length pre)) with (String.length (pre ++ String c EmptyString))
    by (rewrite length_append; cbn; lia).
  replace (pre ++ String c post) with ((pre ++ String c EmptyString) ++ post)
    by now rewrite append_assoc.
  apply dropChars_app.
Qed.

End Paths.

(** X1: the base a specifier is resolved against is the importer's
    directory: for an importer made of a directory, a slash and a name
    without slash, it is the file URL of the directory with a closing
    slash; an importer without any slash resolves against the root. *)
Theorem X1_importerBase_is_the_importer_directory (dir name : string) :
  hasChar "/" name = false ->
  importerBase (dir ++ "/" ++ name) = "file://" ++ dir ++ "/"
  /\ importerBase name = "file:///".
Proof.
  intros Hname. unfold importerBase, pop. split.
  - change (dir ++ "/" ++ name) with (dir ++ String "/" name).
    rewrite split_app_sep, (split_no_sep _ name Hname), removelast_last.
    now rewrite join_split.
  - now rewrite (split_no_sep _ name Hname).
Qed.

Lemma X1_importerBase_is_the_importer_directory_witness :
  importerBase "/components/Editor.tsx" = "file:///components/".
Proof.
  apply (proj1 (X1_importerBase_is_the_importer_directory "/components" "Editor.tsx" eq_refl)).
Defined.

(** X2: the text the file explorer shows for a path is its last segment:
    it holds no slash, and a path with a slash is its directory (as the
    loader computes it), a slash and that text; a path without slash is
    shown whole. *)
Theorem X2_fileLabel_is_the_last_segment (path : string) :
  hasChar "/" (fileLabel path) = false
  /\ fileLabel path = List.last (split "/" path) EmptyString
  /\ (hasChar "/" path = true ->
      path = join "/" (pop (split "/" path)) ++ "/" ++ fileLabel path)
  /\ (hasChar "/" path = false -> fileLabel path = path).
Proof.
  unfold fileLabel, substringFrom, pop.
  destruct (hasChar "/" path) eqn:Hs.
  - destruct (hasChar_last_occurrence "/" path Hs) as (pre & post & -> & Hpost & Hidx).
    rewrite Hidx.
    replace (Z.to_nat (Z.of_nat (String.length pre) + 1)) with (S (String.length pre))
      by lia.
    rewrite dropChars_past_sep, split_app_sep, (split_no_sep _ post Hpost).
    rewrite last_last, removelast_last, join_split.
    split; [exact Hpost|]. split; [reflexivity|]. split; [reflexivity | discriminate].
  - rewrite (lastIndexOf_absent _ _ Hs).
    change (Z.to_nat (-1 + 1)) with 0.
    assert (Hd : dropChars 0 path = path).
    { unfold dropChars. rewrite Nat.sub_0_r. apply substring_all. }
    rewrite Hd, (split_no_sep _ _ Hs).
    split; [exact Hs|]. split; [reflexivity|]. split; [discriminate | reflexivity].
Qed.

(** ** The editor's gutter *)

Lemma string_of_uint_no_newline (d : Decimal.uint) :
  hasChar newline (NilEmpty.string_of_uint d) = false.
Proof. induction d; cbn; [reflexivity | exact IHd ..]. Qed.

Lemma decimal_no_newline (n : nat) : hasChar newline (decimal n) = false.
Proof.
  unfold decimal, NilZero.string_of_uint.
  destruct (Nat.to_uint n); try reflexivity; apply string_of_uint_no_newline.
Qed.

(** X3: the gutter has a line for every line of the content and no
    other: the content has at least one line, one more for each line
    break, and the text of the line numbers has the same number of
    lines. *)
Theorem X3_Editor_gutter_has_one_number_per_line (content more : string) :
  1 <= Editor_lines content
  /\ Editor_lines (content ++ String newline more) = Editor_lines content + Editor_lines more
  /\ Editor_lines (Editor_lineNumbers (Editor_lines content)) = Editor_lines content.
Proof.
  unfold Editor_lines. split; [|split].
  - pose proof (split_nonempty newline content) as Hne.
    destruct (split newline content); [contradiction | cbn; lia].
  - now rewrite split_app_sep, length_app.
  - unfold Editor_lineNumbers. rewrite split_join.
    + now rewrite length_map, length_seq.
    + pose proof (split_nonempty newline content) as Hne.
      destruct (split newline content); [contradiction | discriminate].
    + apply List.Forall_forall. intros x Hx. apply in_map_iff in Hx as (i & <- & _).
      apply decimal_no_newline.
Qed.

(** ** The order of the file explorer *)

(** X4: in a listing sorted by the explorer's comparator, whatever the
    host's string order, the boot files come first: the listing is a run
    of boot-critical paths followed by a run of the others. *)
Theorem X4_explorer_lists_boot_files_first
    (localeCompare : string -> string -> Z) (paths : list string) :
  sortedBy (explorerCompare localeCompare) paths ->
  exists boots others,
    paths = (boots ++ others)%list
    /\ Forall (fun p => is_boot_critical p = true) boots
    /\ Forall (fun p => is_boot_critical p = false) others.
Proof.
  unfold sortedBy. induction 1 as [|a l Hsorted IH Hle].
  - exists [], []. repeat split; constructor.
  - destruct IH as (boots & others & -> & Hb & Ho).
    destruct (is_boot_critical a) eqn:Ha.
    + exists (a :: boots), others. repeat split; [now constructor | exact Ho].
    + exists [], (a :: boots ++ others)%list. repeat split; [constructor|].
      constructor; [exact Ha|].
      apply List.Forall_forall. intros b Hin.
      rewrite List.Forall_forall in Hle. specialize (Hle b Hin).
      unfold explorerCompare in Hle. rewrite Ha in Hle. cbn in Hle.
      destruct (is_boot_critical b); [lia | reflexivity].
Qed.

Lemma X4_explorer_lists_boot_files_first_witness :
  exists boots others,
    ["/boot/kernel.tsx"; "/components/Editor.tsx"] = (boots ++ others)%list
    /\ Forall (fun p => is_boot_critical p = true) boots
    /\ Forall (fun p => is_boot_critical p = false) others.
Proof.
  apply (X4_explorer_lists_boot_files_first (fun _ _ => 0%Z)).
  repeat constructor; vm_compute; discriminate.
Defined.

Lemma X2_fileLabel_is_the_last_segment_witness :
  fileLabel "/boot/kernel.tsx" = "kernel.tsx"
  /\ "/boot/kernel.tsx" = "/boot" ++ "/" ++ fileLabel "/boot/kernel.tsx".
Proof.
  destruct (X2_fileLabel_is_the_last_segment "/boot/kernel.tsx") as (_ & Hlast & Hdir & _).
  split; [exact Hlast | exact (Hdir eq_refl)].
Defined.

(** ** Edits and how they compose *)

Section Edits.
Context `{Platform}.

Lemma applyEvolution_known (ev : Evolution) (vfs : VFS) :
  knownAction (action ev) ->
  applyEvolution ev vfs
  = Ok (if String.eqb (action ev) "DELETE" then delete (filePath ev) vfs
        else assignProperty (filePath ev) (code ev) vfs).
Proof.
  destruct ev as [tag p c]. cbn. intros [-> | [-> | ->]]; reflexivity.
Qed.

Lemma assignProperty_frame (key val : string) (obj : VFS) (q : string) :
  q <> key -> assignProperty key val obj !! q = obj !! q.
Proof.
  intros Hq. unfold assignProperty.
  destruct (obj !! key); [now apply lookup_insert_ne|].
  destruct (String.eqb key "__proto__"); [reflexivity | now apply lookup_insert_ne].
Qed.

Lemma assignProperty_again (key val : string) (obj : VFS) :
  assignProperty key val (assignProperty key val obj) = assignProperty key val obj.
Proof.
  assert (Hins : assignProperty key val (<[key := val]> obj) = <[key := val]> obj).
  { unfold assignProperty. rewrite lookup_insert_eq. apply insert_insert_eq. }
  destruct (obj !! key) eqn:Hown.
  - assert (E : assignProperty key val obj = <[key := val]> obj)
      by (unfold assignProperty; now rewrite Hown).
    rewrite E. exact Hins.
  - destruct (String.eqb key "__proto__") eqn:Hk.
    + assert (E : assignProperty key val obj = obj)
        by (unfold assignProperty; now rewrite Hown, Hk).
      rewrite E. exact E.
    + assert (E : assignProperty key val obj = <[key := val]> obj)
        by (unfold assignProperty; now rewrite Hown, Hk).
      rewrite E. exact Hins.
Qed.

Lemma assignProperty_commute (k1 v1 k2 v2 : string) (obj : VFS) :
  k1 <> k2 ->
  assignProperty k1 v1 (assignProperty k2 v2 obj)
  = assignProperty k2 v2 (assignProperty k1 v1 obj).
Proof.
  intros Hne. unfold assignProperty at 1 3.
  rewrite (assignProperty_frame k2 v2 obj k1 Hne).
  rewrite (assignProperty_frame k1 v1 obj k2 (not_eq_sym Hne)).
  unfold assignProperty.
  destruct (obj !! k1), (obj !! k2), (String.eqb k1 "__proto__"),
    (String.eqb k2 "__proto__"); try reflexivity; now apply insert_insert_ne.
Qed.

Lemma assignProperty_delete_commute (k1 v1 k2 : string) (obj : VFS) :
  k1 <> k2 ->
  assignProperty k1 v1 (delete k2 obj) = delete k2 (assignProperty k1 v1 obj).
Proof.
  intros Hne. unfold assignProperty.
  rewrite (lookup_delete_ne obj k2 k1) by now apply not_eq_sym.
  destruct (obj !! k1), (String.eqb k1 "__proto__"); try reflexivity;
    symmetry; apply delete_insert_ne; now apply not_eq_sym.
Qed.

Lemma applyEvolution_Ok_known (ev : Evolution) (vfs vfs' : VFS) :
  applyEvolution ev vfs = Ok vfs' -> knownAction (action ev).
Proof.
  unfold applyEvolution, knownAction.
  destruct (String.eqb_spec (action ev) "UPDATE") as [->|_]; [auto|].
  destruct (String.eqb_spec (action ev) "CREATE") as [->|_]; [auto|].
  destruct (String.eqb_spec (action ev) "DELETE") as [->|_]; [auto|].
  discriminate.
Qed.

Lemma applyEvolution_frame (ev : Evolution) (vfs vfs' : VFS) (q : string) :
  applyEvolution ev vfs = Ok vfs' ->
  q <> filePath ev ->
  vfs' !! q = vfs !! q.
Proof.
  intros Hap Hq. pose proof (applyEvolution_Ok_known _ _ _ Hap) as Hk.
  rewrite (applyEvolution_known ev vfs Hk) in Hap. injection Hap as <-.
  destruct (String.eqb (action ev) "DELETE").
  - now apply lookup_delete_ne.
  - now apply assignProperty_frame.
Qed.

(** X5: applying an edit a second time changes nothing: the VFS an edit
    produced is the VFS the same edit produces from it. *)
Theorem X5_applying_an_edit_again_changes_nothing (ev : Evolution) (vfs vfs' : VFS) :
  applyEvolution ev vfs = Ok vfs' ->
  applyEvolution ev vfs' = Ok vfs'.
Proof.
  intros Hap. pose proof (applyEvolution_Ok_known _ _ _ Hap) as Hk.
  rewrite (applyEvolution_known ev vfs Hk) in Hap. injection Hap as <-.
  rewrite (applyEvolution_known ev _ Hk).
  destruct (String.eqb (action ev) "DELETE").
  - now rewrite delete_delete_eq.
  - now rewrite assignProperty_again.
Qed.

(** X6: two edits with known actions on different paths give the same
    VFS in either order; on the same path of the data model, that is, an
    absolute one, the second alone decides the outcome. *)
Theorem X6_edits_commute_on_different_paths (first second : Evolution) (vfs : VFS) :
  knownAction (action first) ->
  knownAction (action second) ->
  (filePath first <> filePath second ->
     applyEvolutionThen first second vfs = applyEvolutionThen second first vfs)
  /\ (filePath first = filePath second ->
      startsWith (filePath second) "/" = true ->
      applyEvolutionThen first second vfs = applyEvolution second vfs).
Proof.
  intros H1 H2. unfold applyEvolutionThen.
  rewrite (applyEvolution_known first vfs H1), (applyEvolution_known second vfs H2).
  rewrite (applyEvolution_known second _ H2), (applyEvolution_known first _ H1).
  split.
  - intros Hne.
    destruct (String.eqb (action first) "DELETE"), (String.eqb (action second) "DELETE");
      f_equal.
    + apply delete_delete.
    + now apply assignProperty_delete_commute, not_eq_sym.
    + symmetry. now apply assignProperty_delete_commute.
    + symmetry. now apply assignProperty_commute.
  - intros -> Habs. rewrite !(assignProperty_absolute _ _ _ Habs).
    destruct (String.eqb (action first) "DELETE"), (String.eqb (action second) "DELETE");
      f_equal.
    + apply delete_delete_eq.
    + apply insert_delete_eq.
    + apply delete_insert_eq.
    + apply insert_insert_eq.
Qed.

(** X7: whatever the service answers, one call of [handleEvolveRequest]
    changes at most one path of the VFS, changes none when it ends with an
    error, and clears the busy flag unless the goal was empty, in which
    case the flag is left as it was. *)
Theorem X7_an_evolution_touches_at_most_one_path
    (st : BootloaderState) (target goal : string) (reply : ServiceReply) :
  let st' := handleEvolveRequest st target goal reply in
  (is_Some (bootError st') -> projectFiles st' = projectFiles st)
  /\ (exists p, forall q, q <> p -> projectFiles st' !! q = projectFiles st !! q)
  /\ (goal <> EmptyString -> isEvolving st' = false)
  /\ (goal = EmptyString -> isEvolving st' = isEvolving st).
Proof.
  cbv zeta. unfold handleEvolveRequest.
  destruct (String.eqb_spec goal EmptyString) as [Hg|Hg].
  { cbn. repeat split; try easy. now exists EmptyString. }
  destruct (evolveCode reply) as [ev|message].
  2:{ cbn. repeat split; try easy. now exists EmptyString. }
  destruct (applyEvolution ev (projectFiles st)) as [newFiles|message] eqn:Hap.
  2:{ cbn. repeat split; try easy. now exists EmptyString. }
  cbn. split; [intros [? [=]]|]. split; [|easy].
  exists (filePath ev). intros q Hq. now apply (applyEvolution_frame ev _ _ q Hap).
Qed.

(** X8: what [evolveCode] returns is what the reply parsed to, except
    that a DELETE always comes back with empty content; an action other
    than DELETE comes back exactly as parsed. *)
Theorem X8_evolveCode_returns_the_parsed_action (reply : ServiceReply) (ev : Evolution) :
  evolveCode reply = Ok ev ->
  (action ev = "DELETE" -> code ev = EmptyString)
  /\ exists text parsed,
       reply = ServiceResponse (Some text)
       /\ text <> EmptyString
       /\ JSON_parse_evolution text = Some parsed
       /\ action ev = action parsed
       /\ filePath ev = filePath parsed
       /\ (action parsed <> "DELETE" -> ev = parsed).
Proof.
  unfold evolveCode. destruct reply as [message | [text|]]; try discriminate.
  destruct (String.eqb_spec text EmptyString) as [|Hne]; [discriminate|].
  destruct (JSON_parse_evolution text) as [parsed|] eqn:Hp; [|discriminate].
  destruct (String.eqb_spec (action parsed) "DELETE") as [Hd|Hd]; intros [= <-].
  - split; [reflexivity|]. exists text, parsed. repeat split; try assumption.
    intros Hc. contradiction.
  - split; [intros Hc; contradiction|]. exists text, parsed. repeat split; assumption.
Qed.

(** X9: a direct edit from the editor of a path of the data model, that
    is, an absolute one, is the UPDATE edit of that path; for every key,
    the path then reads the new content, no path is lost, the last of two
    edits of a path wins, and writing the content a path already has
    leaves the VFS as it is. *)
Theorem X9_direct_edit_is_an_update (path content earlier : string) (vfs : VFS) :
  (startsWith path "/" = true ->
     applyEvolution (mkEvolution "UPDATE" path content) vfs
     = Ok (handleFileChange path content vfs))
  /\ handleFileChange path content vfs !! path = Some content
  /\ dom (handleFileChange path content vfs) = {[path]} ∪ dom vfs
  /\ handleFileChange path content (handleFileChange path earlier vfs)
     = handleFileChange path content vfs
  /\ (vfs !! path = Some content -> handleFileChange path content vfs = vfs).
Proof.
  unfold handleFileChange.
  split; [intros Habs; now apply applyEvolution_upsert; [left|]|].
  split; [apply lookup_insert_eq|].
  split; [apply dom_insert_L|].
  split; [apply insert_insert_eq | apply insert_id].
Qed.

End Edits.

Lemma X5_applying_an_edit_again_changes_nothing_witness :
  applyEvolution (mkEvolution "DELETE" "/components/Editor.tsx" EmptyString)
    (delete "/components/Editor.tsx" sampleProject)
  = Ok (delete "/components/Editor.tsx" sampleProject).
Proof.
  apply (X5_applying_an_edit_again_changes_nothing
           (mkEvolution "DELETE" "/components/Editor.tsx" EmptyString) sampleProject).
  reflexivity.
Defined.

Lemma X6_edits_commute_on_different_paths_witness :
  let create := mkEvolution "CREATE" "/components/New.tsx" "new" in
  let remove := mkEvolution "DELETE" "/components/Editor.tsx" EmptyString in
  applyEvolutionThen create remove sampleProject
  = applyEvolutionThen remove create sampleProject.
Proof.
  apply (X6_edits_commute_on_different_paths
           (mkEvolution "CREATE" "/components/New.tsx" "new")
           (mkEvolution "DELETE" "/components/Editor.tsx" EmptyString) sampleProject).
  - right; left; reflexivity.
  - right; right; reflexivity.
  - discriminate.
Defined.

Lemma X8_evolveCode_returns_the_parsed_action_witness :
  code (mkEvolution "DELETE" "/components/Editor.tsx" EmptyString) = EmptyString.
Proof.
  apply (@X8_evolveCode_returns_the_parsed_action
           (replyingPlatform (mkEvolution "DELETE" "/components/Editor.tsx" "stale") ∅)
           (ServiceResponse (Some "reply"))
           (mkEvolution "DELETE" "/components/Editor.tsx" EmptyString) eq_refl).
  reflexivity.
Defined.

Lemma X9_direct_edit_is_an_update_witness :
  handleFileChange "/boot/kernel.tsx" "kernel" sampleProject = sampleProject.
Proof.
  apply (X9_direct_edit_is_an_update "/boot/kernel.tsx" "kernel" EmptyString sampleProject).
  reflexivity.
Defined.

Lemma X7_an_evolution_touches_at_most_one_path_witness :
  let st := mkBootloaderState sampleProject true None in
  let st' := @handleEvolveRequest plainPlatform st "/boot/kernel.tsx" "goal"
               (ServiceError "network") in
  projectFiles st' = sampleProject /\ isEvolving st' = false.
Proof.
  destruct (@X7_an_evolution_touches_at_most_one_path plainPlatform
              (mkBootloaderState sampleProject true None) "/boot/kernel.tsx" "goal"
              (ServiceError "network")) as (Herr & _ & Hbusy & _).
  split; [apply Herr; eexists; reflexivity | apply Hbusy; discriminate].
Defined.

(** ** The dialogs of the seed kernel *)

(** X10: the create dialog sends an evolution request only for a path
    that starts with a slash, and the request then names that very path
    with a goal that is not empty; a non-empty path without the slash
    ends in the alert, and a cancelled or empty dialog in nothing.  The
    delete dialog sends its path with a non-empty goal when confirmed and
    nothing otherwise. *)
Theorem X10_dialogs_request_absolute_paths_only (input : option string) (path goal : string) :
  (handleFileCreate input = RequestEvolve path goal <->
     input = Some path /\ startsWith path "/" = true
     /\ goal = "Create a new empty React component at: " ++ path)
  /\ (handleFileCreate input = AlertInvalidPath <->
      exists p, input = Some p /\ p <> EmptyString /\ startsWith p "/" = false)
  /\ (handleFileCreate input = RequestEvolve path goal -> goal <> EmptyString)
  /\ (forall confirmed p g,
        handleFileDelete confirmed p = RequestEvolve p g ->
        confirmed = true /\ g <> EmptyString).
Proof.
  assert (Hslash : forall p, startsWith p "/" = true -> p <> EmptyString)
    by (intros p Hp ->; discriminate Hp).
  split; [|split; [|split]].
  - unfold handleFileCreate. destruct input as [p|]; [|split; [discriminate | now intros [[=] _]]].
    destruct (String.eqb_spec p EmptyString) as [->|Hne]; cbn.
    + split; [discriminate | intros ([= <-] & Hs & _); discriminate Hs].
    + destruct (startsWith p "/") eqn:Hs.
      * split; [now intros [= <- <-] | now intros ([= <-] & _ & ->)].
      * split; [discriminate | intros ([= <-] & Hs' & _); congruence].
  - unfold handleFileCreate. destruct input as [p|]; [|split; [discriminate | now intros (? & [=] & _)]].
    destruct (String.eqb_spec p EmptyString) as [->|Hne]; cbn.
    + split; [discriminate | now intros (? & [= <-] & Hn & _)].
    + destruct (startsWith p "/") eqn:Hs.
      * split; [discriminate | intros (? & [= <-] & _ & Hs'); congruence].
      * split; [now exists p | reflexivity].
  - unfold handleFileCreate. destruct input as [p|]; [|discriminate].
    destruct (negb (String.eqb p EmptyString) && startsWith p "/");
      [intros [= _ <-]; discriminate|].
    destruct (negb (String.eqb p EmptyString)); discriminate.
  - unfold handleFileDelete. intros [|] p g; [|discriminate].
    intros [= <-]. split; [reflexivity | discriminate].
Qed.

Lemma X10_dialogs_request_absolute_paths_only_witness :
  handleFileCreate (Some "/components/New.tsx")
  = RequestEvolve "/components/New.tsx"
      "Create a new empty React component at: /components/New.tsx".
Proof.
  apply (proj1 (X10_dialogs_request_absolute_paths_only
                  (Some "/components/New.tsx") "/components/New.tsx"
                  "Create a new empty React component at: /components/New.tsx")).
  repeat split.
Defined.

(** ** The BIOS and its store *)

(** X11: what the BIOS saved is what the next start-up loads, provided
    the text written parses back to the files; a write that throws leaves
    the store and the BIOS's files as they were and sets the error; after
    a confirmed factory reset the next start-up loads the seed project,
    and a declined reset leaves the store alone. *)
Theorem X11_saved_project_is_loaded_until_reset `{Platform}
    (JSON_stringify : VFS -> string) (INITIAL_PROJECT files : VFS)
    (store : option string) (bios : BiosState) :
  JSON_stringify files <> EmptyString ->
  JSON_parse_vfs (JSON_stringify files) = Some files ->
  let saved := saveProjectFiles JSON_stringify false files store bios in
  let failed := saveProjectFiles JSON_stringify true files store bios in
  initialProjectFiles INITIAL_PROJECT (getItem (fst saved)) = files
  /\ bios_projectFiles (snd saved) = files
  /\ biosError (snd saved) = biosError bios
  /\ fst failed = store
  /\ bios_projectFiles (snd failed) = bios_projectFiles bios
  /\ is_Some (biosError (snd failed))
  /\ initialProjectFiles INITIAL_PROJECT (getItem (handleFactoryReset true (fst saved)))
     = INITIAL_PROJECT
  /\ handleFactoryReset false (fst saved) = fst saved.
Proof.
  intros Hne Hparse. cbn.
  destruct (String.eqb_spec (JSON_stringify files) EmptyString) as [E|_]; [contradiction|].
  rewrite Hparse. repeat split. eexists; reflexivity.
Qed.

Lemma X11_saved_project_is_loaded_until_reset_witness :
  let store := fst (saveProjectFiles (fun _ => "{}") false sampleProject None
                      (mkBiosState ∅ None)) in
  @initialProjectFiles (replyingPlatform (mkEvolution "UPDATE" "/x" "x") sampleProject)
    ∅ (getItem store) = sampleProject.
Proof.
  apply (@X11_saved_project_is_loaded_until_reset
           (replyingPlatform (mkEvolution "UPDATE" "/x" "x") sampleProject)
           (fun _ => "{}") ∅ sampleProject None (mkBiosState ∅ None)).
  - discriminate.
  - reflexivity.
Defined.

(** ** The kernel of the batch protocol *)

Section BatchKernel.
Variable JSON_parse : option string -> result string BatchResult.
Variable batchUpdate : list Change -> VFS -> VFS.

Lemma includes_In (paths : list string) (path : string) :
  includes paths path = true <-> In path paths.
Proof.
  unfold includes. rewrite existsb_exists. split.
  - intros (x & Hin & Heq). apply String.eqb_eq in Heq. now subst.
  - intros Hin. exists path. split; [exact Hin | apply String.eqb_refl].
Qed.

(** X12: when the reply parses to a non-empty list of changes, the
    kernel hands exactly that list to the callback once, and the file
    shown afterwards is one of the changed files: the one shown before
    when it is among them, the first changed file otherwise; the prompt
    and the error are cleared and the busy flag is off. *)
Theorem X12_batch_selects_a_changed_file
    (text : option string) (parsed : BatchResult) (cs : list Change)
    (vfs : VFS) (st : KernelState) :
  prompt st <> EmptyString ->
  JSON_parse text = Ok parsed ->
  changes parsed = Some cs ->
  cs <> [] ->
  let out := handleEvolve JSON_parse batchUpdate (Ok text) vfs st in
  fst out = batchUpdate cs vfs
  /\ In (activeFile (snd out)) (List.map change_filePath cs)
  /\ (In (activeFile st) (List.map change_filePath cs) -> activeFile (snd out) = activeFile st)
  /\ (~ In (activeFile st) (List.map change_filePath cs) ->
      List.head (List.map change_filePath cs) = Some (activeFile (snd out)))
  /\ prompt (snd out) = EmptyString
  /\ error (snd out) = EmptyString
  /\ isLoading (snd out) = false.
Proof.
  intros Hprompt Hparse Hchanges Hcs. cbv zeta. unfold handleEvolve.
  destruct (String.eqb_spec (prompt st) EmptyString) as [E|_]; [contradiction|].
  rewrite Hparse, Hchanges. destruct cs as [|c cs]; [contradiction|].
  cbn [fst snd activeFile prompt error isLoading].
  destruct (includes (List.map change_filePath (c :: cs)) (activeFile st)) eqn:Hinc.
  - apply includes_In in Hinc. repeat split; try assumption. intros Hn. contradiction.
  - assert (Hn : ~ In (activeFile st) (List.map change_filePath (c :: cs))).
    { intros Hin. apply includes_In in Hin. congruence. }
    repeat split; try (now left). intros Hin. contradiction.
Qed.

(** X13: the kernel passes a changed VFS on only through the callback,
    on a non-empty list of changes.  With an empty prompt nothing but the
    error message changes; when the service or the parser fails the VFS
    and the prompt are kept, the message is shown and the busy flag is
    off; a reply without changes keeps the VFS and clears the prompt. *)
Theorem X13_batch_failures_leave_the_vfs
    (reply : result string (option string)) (vfs : VFS) (st : KernelState) :
  let out := handleEvolve JSON_parse batchUpdate reply vfs st in
  (prompt st = EmptyString ->
     fst out = vfs /\ activeFile (snd out) = activeFile st
     /\ isLoading (snd out) = isLoading st /\ lastSummary (snd out) = lastSummary st)
  /\ (prompt st <> EmptyString ->
      forall message,
        reply = Err message \/ (exists text, reply = Ok text /\ JSON_parse text = Err message) ->
        out = (vfs, mkKernelState (activeFile st) (prompt st) false message EmptyString))
  /\ (prompt st <> EmptyString ->
      forall text parsed,
        reply = Ok text -> JSON_parse text = Ok parsed ->
        changes parsed = None \/ changes parsed = Some [] ->
        fst out = vfs /\ prompt (snd out) = EmptyString /\ activeFile (snd out) = activeFile st)
  /\ (fst out = vfs \/ exists cs, cs <> [] /\ fst out = batchUpdate cs vfs).
Proof.
  cbv zeta. unfold handleEvolve.
  destruct (String.eqb_spec (prompt st) EmptyString) as [E|E].
  { split; [now intros _|]. split; [now intros ?|]. split; [now intros ?|]. now left. }
  split; [now intros ?|]. split; [|split].
  - intros _ message [-> | (text & -> & ->)]; reflexivity.
  - intros _ text parsed -> -> [-> | ->]; now repeat split.
  - destruct reply as [text|message]; [|now left].
    destruct (JSON_parse text) as [parsed|message]; [|now left].
    destruct (changes parsed) as [[|c cs]|]; [now left | | now left].
    right. exists (c :: cs). split; [discriminate | reflexivity].
Qed.

End BatchKernel.

Lemma X12_batch_selects_a_changed_file_witness :
  let parsed := mkBatchResult (Some [mkChange "/App.tsx" "app"]) None in
  let st := mkKernelState "/index.tsx" "add a button" false EmptyString EmptyString in
  activeFile (snd (handleEvolve (fun _ => Ok parsed) onVfsBatchUpdate (Ok (Some "reply"))
                     sampleProject st)) = "/App.tsx".
Proof.
  destruct (X12_batch_selects_a_changed_file
              (fun _ => Ok (mkBatchResult (Some [mkChange "/App.tsx" "app"]) None))
              onVfsBatchUpdate (Some "reply")
              (mkBatchResult (Some [mkChange "/App.tsx" "app"]) None)
              [mkChange "/App.tsx" "app"] sampleProject
              (mkKernelState "/index.tsx" "add a button" false EmptyString EmptyString))
    as (_ & _ & _ & Hhead & _);
    [discriminate | reflexivity | reflexivity | discriminate |].
  assert (Hn : ~ In "/index.tsx" (List.map change_filePath [mkChange "/App.tsx" "app"])).
  { intros [E | []]. discriminate E. }
  specialize (Hhead Hn). symmetry.
  exact (f_equal (default EmptyString) Hhead).
Defined.

Lemma X13_batch_failures_leave_the_vfs_witness :
  let st := mkKernelState "/index.tsx" "add a button" true EmptyString "Thinking..." in
  handleEvolve (fun _ => Err "bad json") onVfsBatchUpdate (Err "network") sampleProject st
  = (sampleProject, mkKernelState "/index.tsx" "add a button" false "network" EmptyString).
Proof.
  destruct (X13_batch_failures_leave_the_vfs (fun _ => Err "bad json") onVfsBatchUpdate
              (Err "network") sampleProject
              (mkKernelState "/index.tsx" "add a button" true EmptyString "Thinking..."))
    as (_ & Hfail & _).
  apply Hfail; [discriminate | now left].
Defined.

(** ** The loader: what every run keeps *)

Section LoaderRuns.
Context `{Platform}.

Lemma customRequire_add_fuel (k fuel : nat) (files : VFS) (importerPath importPath : string)
    (st : LoaderState) (r : result LoadError value * LoaderState) :
  customRequire fuel files importerPath importPath st = Some r ->
  customRequire (k + fuel) files importerPath importPath st = Some r.
Proof.
  intros Hr. induction k as [|k IH]; [exact Hr|].
  now apply customRequire_more_fuel.
Qed.

(** A relation between states that every step of the loader respects
    holds between the start and the end of every run. *)
Section Invariant.
Variable R : LoaderState -> LoaderState -> Prop.
Hypothesis R_refl : forall st, R st st.
Hypothesis R_trans : forall a b c, R a b -> R b c -> R a c.
Hypothesis R_required : forall st self specifier v, R st (log (EvRequired self specifier v) st).
Hypothesis R_executed : forall st p, R st (log (EvExecuted p) st).
Hypothesis R_setProperty : forall st ref key val, R st (setProperty ref key val st).
Hypothesis R_cached : forall st p,
  moduleCache st !! p = None -> R st (snd (cacheFreshModule p st)).
Hypothesis R_entered : forall st p,
  moduleCache st !! p = None ->
  R st (log (EvExecuting p) (snd (cacheFreshModule p st))).

Lemma runBody_respects (require : string -> Load value) (self : string) (ref : nat)
    (body : list stmt) (st st' : LoaderState) (r : result LoadError unit) :
  (forall specifier st0 r0 st1, require specifier st0 = Some (r0, st1) -> R st0 st1) ->
  runBody require self ref body st = Some (r, st') ->
  R st st'.
Proof.
  intros Hreq. revert st.
  induction body as [|[specifier | key val] body IH]; intros st; cbn.
  - intros [= _ <-]. apply R_refl.
  - destruct (require specifier st) as [[[v|e] st1]|] eqn:E; [| |discriminate].
    + intros Hrest. apply (R_trans _ st1); [now apply (Hreq _ _ _ _ E)|].
      apply (R_trans _ (log (EvRequired self specifier v) st1)); [apply R_required|].
      now apply IH.
    + intros [= _ <-]. now apply (Hreq _ _ _ _ E).
  - intros Hrest. apply (R_trans _ (setProperty ref key val st)); [apply R_setProperty|].
    now apply IH.
Qed.

Lemma customRequire_respects (fuel : nat) (files : VFS) (importerPath importPath : string)
    (st st' : LoaderState) (r : result LoadError value) :
  customRequire fuel files importerPath importPath st = Some (r, st') ->
  R st st'.
Proof.
  revert importerPath importPath st st' r.
  induction fuel as [|fuel IH]; intros importerPath importPath st st' r; [discriminate|].
  rewrite customRequire_S.
  destruct (String.eqb importPath "react"); [intros [= _ <-]; apply R_refl|].
  destruct (resolve files importerPath importPath) as [p|e]; [|intros [= _ <-]; apply R_refl].
  destruct (moduleCache st !! p) eqn:Hcache; [intros [= _ <-]; apply R_refl|].
  destruct (files !! p ≫= _) as [transformedCode|]; [|intros [= _ <-]; apply R_refl].
  destruct (Function_body transformedCode) as [body|];
    [|intros [= _ <-]; now apply R_cached].
  destruct (runBody (customRequire fuel files p) p _ body _) as [[[u|e] st2]|] eqn:E;
    [| |discriminate];
    intros [= _ <-];
    pose proof (runBody_respects _ _ _ _ _ _ _
                  (fun specifier st0 r0 st1 => IH p specifier st0 st1 r0) E) as Hbody.
  - apply (R_trans _ (log (EvExecuting p) (snd (cacheFreshModule p st))));
      [now apply R_entered|].
    apply (R_trans _ st2); [exact Hbody | apply R_executed].
  - apply (R_trans _ (log (EvExecuting p) (snd (cacheFreshModule p st))));
      [now apply R_entered | exact Hbody].
Qed.

End Invariant.

Lemma customRequire_keeps_cache (fuel : nat) (files : VFS) (importerPath importPath : string)
    (st st' : LoaderState) (r : result LoadError value) :
  customRequire fuel files importerPath importPath st = Some (r, st') ->
  moduleCache st ⊆ moduleCache st'.
Proof.
  apply (customRequire_respects (fun a b => moduleCache a ⊆ moduleCache b)).
  - reflexivity.
  - intros a b c Hab Hbc. now transitivity (moduleCache b).
  - reflexivity.
  - reflexivity.
  - reflexivity.
  - intros st0 p Hp. now apply insert_subseteq.
  - intros st0 p Hp. now apply insert_subseteq.
Qed.

Lemma customRequire_result_cached (fuel : nat) (files : VFS)
    (importerPath importPath p : string) (st st' : LoaderState) (v : value) :
  importPath <> "react" ->
  resolve files importerPath importPath = Ok p ->
  customRequire fuel files importerPath importPath st = Some (Ok v, st') ->
  exists cell, moduleCache st' !! p = Some cell /\ v = VObject (exports cell).
Proof.
  intros Hspec Hres. destruct fuel as [|fuel]; [discriminate|].
  rewrite customRequire_S.
  destruct (String.eqb_spec importPath "react") as [E|_]; [contradiction|].
  rewrite Hres.
  destruct (moduleCache st !! p) as [cell|] eqn:Hcache; [intros [= <- <-]; eauto|].
  destruct (files !! p ≫= _) as [transformedCode|]; [|discriminate].
  destruct (Function_body transformedCode) as [body|]; [|discriminate].
  destruct (runBody (customRequire fuel files p) p _ body _) as [[[u|e] st2]|] eqn:E;
    [|discriminate|discriminate].
  intros [= <- <-]. exists (mkModuleCell (List.length (objects st))).
  split; [|reflexivity].
  assert (Hsub : moduleCache (log (EvExecuting p) (snd (cacheFreshModule p st)))
                 ⊆ moduleCache st2).
  { apply (runBody_respects (fun a b => moduleCache a ⊆ moduleCache b)) in E;
      [exact E | reflexivity | | reflexivity | reflexivity |].
    - intros a b c Hab Hbc. now transitivity (moduleCache b).
    - intros specifier st0 r0 st1 Hr. now apply customRequire_keeps_cache in Hr. }
  cbn [log moduleCache]. eapply lookup_weaken; [|exact Hsub].
  cbn. apply lookup_insert_eq.
Qed.

(** X14: a load from an empty cache always returns, whatever the VFS,
    the importer and the specifier: there is one outcome, and every fuel
    above the number of files of the VFS reaches it. *)
Theorem X14_a_load_always_returns (files : VFS) (importerPath importPath : string) :
  exists r st',
    forall fuel, size (dom files) < fuel ->
      customRequire fuel files importerPath importPath emptyLoaderState = Some (r, st').
Proof.
  assert (Hu : uncached files emptyLoaderState = size (dom files)).
  { unfold uncached. cbn. now rewrite dom_empty_L, difference_empty_L. }
  destruct (customRequire_returns (S (size (dom files))) files importerPath importPath
              emptyLoaderState) as (r & st' & Hr & _); [lia|].
  exists r, st'. intros fuel Hfuel.
  replace fuel with ((fuel - S (size (dom files))) + S (size (dom files))) by lia.
  now apply customRequire_add_fuel.
Qed.

(** X15: two requires that resolve to the same file share one exports
    object: once a load of a file has returned, any later require that
    resolves to that file returns the same object and leaves the state,
    trace included, as it is, so the body does not run again. *)
Theorem X15_a_second_require_returns_the_same_exports
    (fuel : nat) (files : VFS) (importerPath importPath p : string)
    (st st' : LoaderState) (v : value) :
  importPath <> "react" ->
  resolve files importerPath importPath = Ok p ->
  customRequire fuel files importerPath importPath st = Some (Ok v, st') ->
  forall fuel2 importerPath2 importPath2,
    importPath2 <> "react" ->
    resolve files importerPath2 importPath2 = Ok p ->
    customRequire (S fuel2) files importerPath2 importPath2 st' = Some (Ok v, st').
Proof.
  intros Hspec Hres Hload fuel2 importerPath2 importPath2 Hspec2 Hres2.
  destruct (customRequire_result_cached _ _ _ _ _ _ _ _ Hspec Hres Hload)
    as (cell & Hcell & ->).
  now apply customRequire_cached with (p := p).
Qed.

Lemma executions_log (e : event) (st : LoaderState) :
  executions (trace (log e st))
  = (executions (trace st)
     ++ match e with EvExecuting p => [p] | _ => [] end)%list.
Proof.
  unfold executions. cbn [log trace]. rewrite omap_app. now destruct e.
Qed.

Lemma wellTraced_entered (st : LoaderState) (p : string) :
  moduleCache st !! p = None ->
  wellTraced st ->
  wellTraced (log (EvExecuting p) (snd (cacheFreshModule p st))).
Proof.
  intros Hp [Hnd Hin]. unfold wellTraced.
  assert (Hex : executions (trace (log (EvExecuting p) (snd (cacheFreshModule p st))))
                = (executions (trace st) ++ [p])%list).
  { rewrite executions_log. f_equal. unfold executions. cbn. rewrite omap_app.
    cbn. now rewrite app_nil_r. }
  rewrite Hex. split.
  - apply NoDup_app. split; [exact Hnd|]. split; [|apply NoDup_singleton].
    intros x Hx Hx'. apply list_elem_of_singleton in Hx'. subst x.
    apply list_elem_of_In, Hin in Hx. rewrite Hp in Hx. now destruct Hx.
  - intros q Hq. cbn. apply in_app_or in Hq as [Hq | [<- | []]].
    + destruct (decide (p = q)) as [<-|Hne]; [rewrite lookup_insert_eq; eauto|].
      rewrite lookup_insert_ne by exact Hne. now apply Hin.
    + rewrite lookup_insert_eq. eauto.
Qed.

Lemma wellTraced_same_executions (st st' : LoaderState) :
  executions (trace st') = executions (trace st) ->
  moduleCache st ⊆ moduleCache st' ->
  wellTraced st -> wellTraced st'.
Proof.
  intros He Hsub [Hnd Hin]. unfold wellTraced. rewrite He. split; [exact Hnd|].
  intros q Hq. destruct (Hin q Hq) as [cell Hcell]. exists cell.
  now apply (lookup_weaken _ _ _ _ Hcell).
Qed.

(** X16: in one pass no module body runs twice: when a load from an
    empty cache returns, with a value or with an error, the bodies that
    were entered are pairwise distinct and each of them is in the
    cache. *)
Theorem X16_no_body_runs_twice (fuel : nat) (files : VFS) (importerPath importPath : string)
    (r : result LoadError value) (st' : LoaderState) :
  customRequire fuel files importerPath importPath emptyLoaderState = Some (r, st') ->
  NoDup (executions (trace st'))
  /\ forall p, In p (executions (trace st')) -> is_Some (moduleCache st' !! p).
Proof.
  intros Hrun.
  assert (Hstart : wellTraced emptyLoaderState) by (split; [constructor | intros p []]).
  revert Hstart.
  apply (fun h1 h2 h3 h4 h5 h6 h7 =>
           customRequire_respects (fun a b => wellTraced a -> wellTraced b)
             h1 h2 h3 h4 h5 h6 h7 fuel files importerPath importPath
             emptyLoaderState st' r Hrun).
  - auto.
  - auto.
  - intros st self specifier v. apply wellTraced_same_executions; [|reflexivity].
    rewrite executions_log. apply app_nil_r.
  - intros st p. apply wellTraced_same_executions; [|reflexivity].
    rewrite executions_log. apply app_nil_r.
  - intros st ref key val. now apply wellTraced_same_executions.
  - intros st p Hp. apply wellTraced_same_executions; [|now apply insert_subseteq].
    unfold executions. cbn. rewrite omap_app. cbn. apply app_nil_r.
  - intros st p Hp. now apply wellTraced_entered.
Qed.

End LoaderRuns.

Lemma X15_a_second_require_returns_the_same_exports_witness :
  @customRequire plainPlatform 1 cycleVFS "/b" "/a" cycleFinalState
  = Some (Ok (VObject 0), cycleFinalState).
Proof.
  apply (@X15_a_second_require_returns_the_same_exports plainPlatform
           3 cycleVFS "/a" "/a" "/a" emptyLoaderState cycleFinalState (VObject 0));
    try discriminate; vm_compute; reflexivity.
Defined.

Lemma X16_no_body_runs_twice_witness :
  NoDup (executions (trace cycleFinalState)).
Proof.
  apply (@X16_no_body_runs_twice plainPlatform 3 cycleVFS "/a" "/a"
           (Ok (VObject 0)) cycleFinalState).
  vm_compute. reflexivity.
Defined.

Lemma X14_a_load_always_returns_witness :
  exists r st', @customRequire plainPlatform 3 cycleVFS "/a" "/a" emptyLoaderState
                = Some (r, st').
Proof.
  destruct (@X14_a_load_always_returns plainPlatform cycleVFS "/a" "/a") as (r & st' & Hr).
  exists r, st'. apply Hr. vm_compute. lia.
Defined.

(** ** The bundle: what every run keeps *)

Section BundleRuns.
Context `{Platform}.

(** One unfolding of the bundle's [require], the nested one left
    folded. *)
Lemma bundleRequire_S (fuel : nat) (modules : gmap string string)
    (path relativePath : string) (st : LoaderState) :
  bundleRequire (S fuel) modules path relativePath st
  = if String.eqb relativePath "react" then Some (Ok VReact, st)
    else if String.eqb relativePath "@google/genai" then Some (Ok VGoogleGenAI, st)
    else
      match bundleResolve modules path relativePath with
      | Err e => Some (Err e, st)
      | Ok absolutePath =>
          match moduleCache st !! absolutePath with
          | Some cell => Some (Ok (VObject (exports cell)), st)
          | None =>
              if inheritedName absolutePath then Some (Ok VUndefined, st)
              else
                match executeModuleWith (bundleRequire fuel modules) absolutePath
                        (default EmptyString (modules !! absolutePath))
                        (snd (cacheFreshModule absolutePath st)) with
                | None => None
                | Some (Err e, st2) => Some (Err e, st2)
                | Some (Ok _, st2) => Some (Ok (VObject (List.length (objects st))), st2)
                end
          end
      end.
Proof. reflexivity. Qed.

Lemma truthy_is_Some (entry : option string) : truthy entry = true -> is_Some entry.
Proof. destruct entry; [eauto | discriminate]. Qed.

Lemma executeModuleWith_returns (modules : gmap string string) (bound : nat)
    (require : string -> string -> Load value) (path code : string) (st : LoaderState) :
  (forall importer specifier st0, uncached modules st0 <= bound ->
     exists r st1, require importer specifier st0 = Some (r, st1)
                   /\ dom (moduleCache st0) ⊆ dom (moduleCache st1)) ->
  uncached modules st <= bound ->
  exists r st', executeModuleWith require path code st = Some (r, st')
                /\ dom (moduleCache st) ⊆ dom (moduleCache st').
Proof.
  intros Hreq Hst. unfold executeModuleWith.
  destruct (moduleCache st !! path); [|eauto].
  destruct (Function_body code) as [body|]; [|eauto].
  destruct (runBody_returns modules bound (require path) path (exports m) body
              (log (EvExecuting path) st)) as (r & st' & -> & Hsub).
  - intros specifier st0. apply Hreq.
  - now rewrite uncached_log.
  - eauto.
Qed.

Lemma bundleRequire_returns (fuel : nat) (modules : gmap string string)
    (path relativePath : string) (st : LoaderState) :
  uncached modules st < fuel ->
  exists r st', bundleRequire fuel modules path relativePath st = Some (r, st')
                /\ dom (moduleCache st) ⊆ dom (moduleCache st').
Proof.
  revert path relativePath st.
  induction fuel as [|fuel IH]; intros path relativePath st Hfuel; [lia|].
  rewrite bundleRequire_S.
  destruct (String.eqb relativePath "react"); [eauto|].
  destruct (String.eqb relativePath "@google/genai"); [eauto|].
  destruct (bundleResolve modules path relativePath) as [p|e] eqn:Hres; [|eauto].
  destruct (moduleCache st !! p) eqn:Hcache; [eauto|].
  destruct (inheritedName p) eqn:Hinh; [eauto|].
  apply bundleResolve_Ok in Hres as [_ Htruthy].
  apply tableTruthy_cases in Htruthy as [Htruthy | [_ Hinh']]; [|congruence].
  pose proof (uncached_cacheFreshModule modules p st (truthy_is_Some _ Htruthy) Hcache)
    as Hless.
  set (st1 := snd (cacheFreshModule p st)) in *.
  assert (Hsub1 : dom (moduleCache st) ⊆ dom (moduleCache st1)).
  { subst st1. cbn. rewrite dom_insert_L. apply union_subseteq_r. }
  destruct (executeModuleWith_returns modules (uncached modules st1)
              (bundleRequire fuel modules) p (default EmptyString (modules !! p)) st1)
    as ([u|e] & st2 & -> & Hsub2).
  - intros importer specifier st0 Hst0. apply IH. lia.
  - reflexivity.
  - eexists _, _. split; [reflexivity|]. now transitivity (dom (moduleCache st1)).
  - eexists _, _. split; [reflexivity|]. now transitivity (dom (moduleCache st1)).
Qed.

Lemma transpiledVFS_dom (vfs : VFS) (modules : gmap string string) :
  transpiledVFS vfs = Ok modules -> dom modules ⊆ dom vfs.
Proof.
  intros Ht p. rewrite !elem_of_dom, (transpiledVFS_lookup vfs modules p Ht).
  destruct (vfs !! p); [eauto | now intros [? [=]]].
Qed.

(** X17: the bundle always returns when module bodies are finite
    sequences of require calls and export assignments, which is what a
    compiled body is here: for every VFS of such modules, a run from an
    empty cache with fuel of at least the number of files ends, in a
    result or in an error, because the bundle too puts a module into its
    cache before running it.  A body that loops by itself is outside this
    statement. *)
Theorem X17_the_bundle_always_returns (fuel : nat) (vfs : VFS) :
  size (dom vfs) <= fuel ->
  exists r st', bundleAndRun fuel vfs emptyLoaderState = Some (r, st').
Proof.
  intros Hfuel. unfold bundleAndRun.
  destruct (transpiledVFS vfs) as [modules|e] eqn:Ht; [|eauto].
  destruct (truthy (modules !! entryPoint)) eqn:Hentry; cbn [negb]; [|eauto].
  pose proof (uncached_cacheFreshModule modules entryPoint emptyLoaderState
                (truthy_is_Some _ Hentry) (lookup_empty _)) as Hless.
  assert (Hsize : uncached modules emptyLoaderState <= size (dom vfs)).
  { unfold uncached. cbn. rewrite dom_empty_L, difference_empty_L.
    apply subseteq_size. now apply transpiledVFS_dom. }
  set (st1 := snd (cacheFreshModule entryPoint emptyLoaderState)) in *.
  destruct (executeModuleWith_returns modules (uncached modules st1)
              (bundleRequire fuel modules) entryPoint
              (default EmptyString (modules !! entryPoint)) st1)
    as (r & st' & Hr & _).
  - intros importer specifier st0 Hst0. apply bundleRequire_returns. lia.
  - reflexivity.
  - exists r, st'. exact Hr.
Qed.

(** X18: without a file /index.tsx in the VFS the bundle runs nothing: it
    stops with an error, the missing entry point or a failed transform,
    and the state is the one it started from. *)
Theorem X18_no_entry_point_no_run (fuel : nat) (vfs : VFS) (st : LoaderState) :
  vfs !! "/index.tsx" = None ->
  exists e, bundleAndRun fuel vfs st = Some (Err e, st)
            /\ (e = EntryPointNotFound \/ e = TransformError EmptyString).
Proof.
  intros Hentry. unfold bundleAndRun.
  destruct (transpiledVFS vfs) as [modules|e] eqn:Ht.
  - rewrite (transpiledVFS_lookup vfs modules entryPoint Ht).
    unfold entryPoint. rewrite Hentry. cbn. eauto.
  - unfold transpiledVFS in Ht. case_bool_decide; [|discriminate].
    injection Ht as <-. eauto.
Qed.

End BundleRuns.

Lemma X17_the_bundle_always_returns_witness :
  exists r st', @bundleAndRun plainPlatform 2 bundleCycleProject emptyLoaderState
                = Some (r, st').
Proof.
  apply (@X17_the_bundle_always_returns plainPlatform 2 bundleCycleProject).
  vm_compute. lia.
Defined.

Lemma X18_no_entry_point_no_run_witness :
  exists e, @bundleAndRun plainPlatform 5 cycleVFS emptyLoaderState
            = Some (Err e, emptyLoaderState)
            /\ (e = EntryPointNotFound \/ e = TransformError EmptyString).
Proof.
  apply (@X18_no_entry_point_no_run plainPlatform 5 cycleVFS emptyLoaderState).
  reflexivity.
Defined.

(** ** The sanitizer, position by position *)

Lemma replacedAt_shift (c : ascii) (rest : string) (i : nat) :
  replacedAt (String c rest) (S i) = replacedAt rest i.
Proof. reflexivity. Qed.

Lemma replaceMatches_cons (c : ascii) (rest : string) :
  replaceMatches (String c rest)
  = replacedAt (String c rest) 0 ++ replaceMatches rest.
Proof.
  unfold replaceMatches. cbn [String.length List.seq List.map fold_right].
  f_equal. rewrite <- seq_shift, List.map_map.
  apply (f_equal (fold_right append EmptyString)).
  apply List.map_ext. intros i. apply replacedAt_shift.
Qed.

(** X19: the sanitizer changes the text at the matches of its regular
    expression and nowhere else: its result is the text in which each
    backslash whose look-ahead fails is replaced, in place, by two
    backslashes and every other character is kept.  So it is the identity
    exactly on the texts in which every backslash is followed by an
    accepted escape, it grows the text by one character for each match,
    and a second pass equals the first exactly on those same texts. *)
Theorem X19_sanitizer_replaces_exactly_the_matches (s : string) :
  sanitizeCodeForBabel s = replaceMatches s
  /\ (sanitizeCodeForBabel s = s <-> all_escapes_valid s = true)
  /\ String.length (sanitizeCodeForBabel s) = String.length s + offending s
  /\ (sanitizeCodeForBabel (sanitizeCodeForBabel s) = sanitizeCodeForBabel s
      <-> all_escapes_valid s = true).
Proof.
  split; [|split; [|split]].
  - induction s as [|c rest IH]; [reflexivity|].
    rewrite replaceMatches_cons, <- IH. unfold replacedAt.
    cbn [String.get sanitizeCodeForBabel].
    assert (Hd : dropChars 1 (String c rest) = rest).
    { unfold dropChars. cbn [String.length Nat.sub String.substring].
      rewrite Nat.sub_0_r. apply substring_all. }
    rewrite Hd.
    now destruct (Ascii.eqb c backslash && negb (valid_escape_ahead rest)).
  - now rewrite sanitize_fixed_iff, all_escapes_valid_iff.
  - apply length_sanitize.
  - now rewrite sanitize_fixed_iff, offending_sanitize, all_escapes_valid_iff.
Qed.

Lemma X19_sanitizer_replaces_exactly_the_matches_witness :
  let s := "a" ++ String backslash "n" ++ String backslash "u00e9" in
  sanitizeCodeForBabel s = s.
Proof.
  destruct (X19_sanitizer_replaces_exactly_the_matches
              ("a" ++ String backslash "n" ++ String backslash "u00e9"))
    as (_ & [_ Hidentity] & _).
  apply Hidentity. reflexivity.
Defined.
